(** * ginga.util.wcsmod: the WCS wrapper module

    A shallow embedding of [ginga/util/wcsmod.py]: the backend registry
    ([use] and the module initialisation), the coordinate-system
    classifiers ([choose_coord_system], top level and the [AstLibWCS]
    method) and the closed-form transforms of [BareBonesWCS].

    Conventions of the embedding.
    - A Python [float] is a real number: arithmetic is exact, there is no
      rounding, no NaN and no infinity.  A float division whose divisor is
      zero raises [ZeroDivisionError], as in Python.  Three things follow.
      The theorems on the transforms give the expressions the code
      evaluates, its guards and its exceptions; none of them bounds a
      rounding error.  The cosine of 90 degrees is zero
      here, where [math.cos(math.radians(90.0))] is a small positive
      number: the theorems that divide by it assume it is not zero, and say
      nothing of a reference declination of 90 or -90 degrees.  And
      [float] turns an integer into the real number of the same value,
      where Python rounds an integer of more than 53 bits and raises
      [OverflowError] beyond the range of a double.
    - A Python 2 [str] is a [string] of 8-bit characters; [strip], [upper]
      and [lower] are the ASCII ones of the C locale.
    - A header is a finite map from keyword to value; [header[key]] raises
      [KeyError] on a missing keyword.
    - Code that can raise returns a [result]. *)

From Stdlib Require Import Reals Lra ZArith String Ascii List.
From stdpp Require Import base gmap strings.

Set Default Proof Using "Type".

(** ** Python values, exceptions and results *)

Module Py.

(** Payload of a [WCSError]; the formatted number of the source's message
    is kept as the number itself. *)
Inductive wcs_msg : Type :=
| CRVAL1_out_of_range (xv : R)
| CRVAL2_out_of_range (yv : R)
| WCS_Matrix_Error
| radectopix_calculation_error.

Inductive exn : Type :=
| KeyError (key : string)
| AttributeError (attr : string)
| ValueError
| ZeroDivisionError
| ImportError
| AssertionError (arg : wcs_msg)
| WCSError (msg : wcs_msg).

Inductive result (A : Type) : Type :=
| Ok (a : A)
| Raise (e : exn).
Arguments Ok {A} a.
Arguments Raise {A} e.

Definition bind {A B} (m : result A) (k : A -> result B) : result B :=
  match m with
  | Ok a => k a
  | Raise e => Raise e
  end.

#[global] Instance result_bind : MBind result := fun A B k m => bind m k.
#[global] Instance result_ret : MRet result := @Ok.

(** [try: m  except KeyError: h] *)
Definition except_KeyError {A} (m : result A) (h : result A) : result A :=
  match m with
  | Raise (KeyError _) => h
  | other => other
  end.

(** [try: m  except Exception: h] *)
Definition except_Exception {A} (m : result A) (h : result A) : result A :=
  match m with
  | Raise _ => h
  | other => other
  end.

Definition is_ok {A} (m : result A) : bool :=
  match m with Ok _ => true | Raise _ => false end.

(** The values a header holds. *)
Inductive value : Type :=
| VFloat (r : R)
| VInt (n : Z)
| VStr (s : string)
| VBool (b : bool).

(** *** [str] methods *)

Definition isspace (c : ascii) : bool :=
  let n := nat_of_ascii c in
  (Nat.eqb n 32 || (Nat.leb 9 n && Nat.leb n 13))%bool.

Fixpoint lstrip (s : string) : string :=
  match s with
  | EmptyString => EmptyString
  | String c s' => if isspace c then lstrip s' else s
  end.

Fixpoint rstrip (s : string) : string :=
  match s with
  | EmptyString => EmptyString
  | String c s' =>
      match rstrip s' with
      | EmptyString => if isspace c then EmptyString else String c EmptyString
      | t => String c t
      end
  end.

Definition strip (s : string) : string := rstrip (lstrip s).

Definition upper_char (c : ascii) : ascii :=
  let n := nat_of_ascii c in
  if (Nat.leb 97 n && Nat.leb n 122)%bool then ascii_of_nat (n - 32) else c.

Definition lower_char (c : ascii) : ascii :=
  let n := nat_of_ascii c in
  if (Nat.leb 65 n && Nat.leb n 90)%bool then ascii_of_nat (n + 32) else c.

Fixpoint map_chars (f : ascii -> ascii) (s : string) : string :=
  match s with
  | EmptyString => EmptyString
  | String c s' => String (f c) (map_chars f s')
  end.

Definition upper : string -> string := map_chars upper_char.
Definition lower : string -> string := map_chars lower_char.

(** [v.strip()], [v.upper()], [v.lower()] on a header value: only a [str]
    has these attributes. *)
Definition as_str (attr : string) (v : value) : result string :=
  match v with
  | VStr s => Ok s
  | _ => Raise (AttributeError attr)
  end.

(** *** The regular expressions of the module

    Every pattern is [^LIT.*$] with a literal [LIT], used through
    [re.match]: the subject starts with [LIT], [.*] takes characters
    other than a newline, and [$] holds at the end of the subject or
    before a newline that ends it. *)

Definition newline : ascii := ascii_of_nat 10.

Fixpoint dot_star_eol (s : string) : bool :=
  match s with
  | EmptyString => true
  | String c s' =>
      if Ascii.eqb c newline
      then match s' with EmptyString => true | _ => false end
      else dot_star_eol s'
  end.

Fixpoint re_match_lit (lit s : string) : bool :=
  match lit, s with
  | EmptyString, _ => dot_star_eol s
  | String a lit', String c s' => (Ascii.eqb a c && re_match_lit lit' s')%bool
  | String _ _, EmptyString => false
  end.

(** *** Headers *)

Abbreviation header := (gmap string value).

(** [h[key]] *)
Definition getitem (h : header) (key : string) : result value :=
  match h !! key with
  | Some v => Ok v
  | None => Raise (KeyError key)
  end.

(** [h.get(key, default)] *)
Definition get (h : header) (key : string) (default : value) : value :=
  match h !! key with
  | Some v => v
  | None => default
  end.

End Py.

Import Py.

(** ** The coordinate-system classifiers *)

Module Classifier.

(** The frame keyword of the right-ascension branch, shared by both
    classifiers: [RADECSYS], then [RADESYS], then the default read off
    [EQUINOX]. *)
Definition read_radecsys (h : header) : result value :=
  except_KeyError (getitem h "RADECSYS")
    (except_KeyError (getitem h "RADESYS")
       (except_KeyError
          (_ ← getitem h "EQUINOX"; Ok (VStr "FK5"))
          (Ok (VStr "ICRS")))).

(** [ctype = header['CTYPE1'].strip().upper()], the [KeyError] not yet
    handled. *)
Definition read_ctype (h : header) : result string :=
  v ← getitem h "CTYPE1";
  s ← as_str "strip" v;
  Ok (upper (strip s)).

(** The module-level [choose_coord_system(header)]. *)
Definition choose_coord_system (h : header) : result string :=
  match read_ctype h with
  | Raise (KeyError _) => Ok "raw"
  | Raise e => Raise e
  | Ok ctype =>
      if re_match_lit "GLON-" ctype then Ok "galactic"
      else if re_match_lit "ELON-" ctype then Ok "ecliptic"
      else if re_match_lit "RA---" ctype then
        radecsys ← read_radecsys h;
        radecsys ← as_str "strip" radecsys;
        let radecsys := strip radecsys in
        Ok (lower radecsys)
      else Ok "icrs"
  end%string.

(** [AstLibWCS.choose_coord_system(self, header)]. *)
Definition AstLibWCS_choose_coord_system (h : header) : result string :=
  match read_ctype h with
  | Raise (KeyError _) => Ok "raw"
  | Raise e => Raise e
  | Ok ctype =>
      if re_match_lit "GLON-" ctype then Ok "galactic"
      else if re_match_lit "RA---" ctype then
        radecsys ← read_radecsys h;
        radecsys ← as_str "strip" radecsys;
        let radecsys := upper (strip radecsys) in
        if String.eqb radecsys "FK4" then Ok "b1950" else Ok "j2000"
      else Ok "j2000"
  end%string.

(** The frame keyword that is read first, when one is there: the value of
    [RADECSYS], else the value of [RADESYS]. *)
Definition frame_keyword (h : gmap string value) : option value :=
  match h !! "RADECSYS" with
  | Some v => Some v
  | None => h !! "RADESYS"
  end.

End Classifier.

(** ** The registry: module variables, [use] and the module initialisation *)

Module Registry.

(** The engine classes [WCS] can name. *)
Inductive engine_class : Type :=
| KapteynWCS
| StarlinkWCS
| AstLibWCS
| AstropyWCS
| BareBonesWCS.

(** The module variables [use] declares [global], and the attribute
    [astWCS.NUMPY_MODE] it writes.  [bound] holds the names that an
    [import] statement of [use] has bound at module level.  [have_pywcs]
    is a module variable too, but [use] does not declare it [global]:
    its assignments there are to a local and are not kept. *)
Record registry : Type := mk_registry {
  coord_types : list string;
  wcs_configured : bool;
  have_kapteyn : bool;
  have_astlib : bool;
  have_pywcs : bool;
  have_astropy : bool;
  have_starlink : bool;
  WCS : option engine_class;
  bound : gset string;
  NUMPY_MODE : bool
}.

(** The module variables as the top of the file sets them. *)
Definition initial : registry :=
  {| coord_types := [];
     wcs_configured := false;
     have_kapteyn := false;
     have_astlib := false;
     have_pywcs := false;
     have_astropy := false;
     have_starlink := false;
     WCS := None;
     bound := ∅;
     NUMPY_MODE := false |}.

(** Which modules the interpreter can import, by dotted name. *)
Definition env : Type := string -> bool.

(** Statements of [use]: state passing, with an exception or a value. *)
Definition M (A : Type) : Type := registry -> registry * result A.

#[global] Instance M_ret : MRet M := fun A a st => (st, Ok a).
#[global] Instance M_bind : MBind M := fun A B k m st =>
  match m st with
  | (st', Ok a) => k a st'
  | (st', Raise e) => (st', Raise e)
  end.

Definition raise {A} (e : exn) : M A := fun st => (st, Raise e).

(** [try: m  except ImportError: h]; the state at the raise is kept. *)
Definition except_ImportError {A} (m : M A) (h : M A) : M A := fun st =>
  match m st with
  | (st', Raise ImportError) => h st'
  | other => other
  end.

(** [import modname as name], or [from pkg import mod as name], binding a
    module-level [name]. *)
Definition import_global (e : env) (modname name : string) : M unit := fun st =>
  if e modname
  then (mk_registry (coord_types st) (wcs_configured st) (have_kapteyn st)
          (have_astlib st) (have_pywcs st) (have_astropy st)
          (have_starlink st) (WCS st) ({[ name ]} ∪ bound st) (NUMPY_MODE st),
        Ok tt)
  else (st, Raise ImportError).

(** The same, binding a local of [use]. *)
Definition import_local (e : env) (modname : string) : M unit := fun st =>
  if e modname then (st, Ok tt) else (st, Raise ImportError).

Definition set_coord_types (v : list string) : M unit := fun st =>
  (mk_registry v (wcs_configured st) (have_kapteyn st) (have_astlib st)
     (have_pywcs st) (have_astropy st) (have_starlink st) (WCS st)
     (bound st) (NUMPY_MODE st), Ok tt).

Definition set_wcs_configured (v : bool) : M unit := fun st =>
  (mk_registry (coord_types st) v (have_kapteyn st) (have_astlib st)
     (have_pywcs st) (have_astropy st) (have_starlink st) (WCS st)
     (bound st) (NUMPY_MODE st), Ok tt).

Definition set_have_kapteyn (v : bool) : M unit := fun st =>
  (mk_registry (coord_types st) (wcs_configured st) v (have_astlib st)
     (have_pywcs st) (have_astropy st) (have_starlink st) (WCS st)
     (bound st) (NUMPY_MODE st), Ok tt).

Definition set_have_astlib (v : bool) : M unit := fun st =>
  (mk_registry (coord_types st) (wcs_configured st) (have_kapteyn st) v
     (have_pywcs st) (have_astropy st) (have_starlink st) (WCS st)
     (bound st) (NUMPY_MODE st), Ok tt).

Definition set_have_astropy (v : bool) : M unit := fun st =>
  (mk_registry (coord_types st) (wcs_configured st) (have_kapteyn st)
     (have_astlib st) (have_pywcs st) v (have_starlink st) (WCS st)
     (bound st) (NUMPY_MODE st), Ok tt).

Definition set_have_starlink (v : bool) : M unit := fun st =>
  (mk_registry (coord_types st) (wcs_configured st) (have_kapteyn st)
     (have_astlib st) (have_pywcs st) (have_astropy st) v (WCS st)
     (bound st) (NUMPY_MODE st), Ok tt).

Definition set_WCS (v : engine_class) : M unit := fun st =>
  (mk_registry (coord_types st) (wcs_configured st) (have_kapteyn st)
     (have_astlib st) (have_pywcs st) (have_astropy st) (have_starlink st)
     (Some v) (bound st) (NUMPY_MODE st), Ok tt).

Definition set_NUMPY_MODE (v : bool) : M unit := fun st =>
  (mk_registry (coord_types st) (wcs_configured st) (have_kapteyn st)
     (have_astlib st) (have_pywcs st) (have_astropy st) (have_starlink st)
     (WCS st) (bound st) v, Ok tt).

(** The handler every branch ends with:
    [except ImportError as e: if raise_err: raise] and then the
    [return False] after the [try]. *)
Definition reraise_or_False (raise_err : bool) : M bool :=
  if raise_err then raise ImportError else mret false.

(** [use(wcspkg, raise_err=True)]. *)
Definition use (e : env) (wcspkg : string) (raise_err : bool) : M bool :=
  if String.eqb wcspkg "kapteyn" then
    except_ImportError
      (import_global e "kapteyn.wcs" "kapwcs";;
       set_coord_types ["icrs"; "fk5"; "fk4"; "galactic"; "ecliptic"];;
       set_have_kapteyn true;;
       set_wcs_configured true;;
       set_WCS KapteynWCS;;
       mret true)
      (reraise_or_False raise_err)
  else if String.eqb wcspkg "starlink" then
    except_ImportError
      (import_global e "starlink.Ast" "Ast";;
       import_global e "starlink.Atl" "Atl";;
       set_coord_types ["icrs"; "fk5"; "fk4"; "galactic"; "ecliptic"];;
       set_have_starlink true;;
       set_wcs_configured true;;
       set_WCS StarlinkWCS;;
       mret true)
      (reraise_or_False raise_err)
  else if String.eqb wcspkg "astlib" then
    except_ImportError
      (import_global e "astLib.astWCS" "astWCS";;
       import_global e "astLib.astCoords" "astCoords";;
       except_ImportError (import_local e "astropy.io.fits")
         (except_ImportError (import_local e "pyfits")
            (raise ImportError));;
       set_NUMPY_MODE true;;
       set_coord_types ["j2000"; "b1950"; "galactic"];;
       set_have_astlib true;;
       set_wcs_configured true;;
       set_WCS AstLibWCS;;
       mret true)
      (reraise_or_False raise_err)
  else if String.eqb wcspkg "astropy" then
    except_ImportError
      (import_global e "astropy.wcs" "pywcs";;
       import_local e "astropy.io.fits")
      (except_ImportError (import_global e "pywcs" "pywcs")
         (if raise_err then raise ImportError else mret tt));;
    except_ImportError
      (import_global e "astropy.coordinates" "coordinates";;
       import_global e "astropy.units" "units";;
       set_have_astropy true;;
       set_wcs_configured true;;
       set_coord_types ["icrs"; "fk5"; "fk4"; "galactic"];;
       set_WCS AstropyWCS;;
       mret true)
      (reraise_or_False raise_err)
  else if String.eqb wcspkg "barebones" then
    set_coord_types ["fk5"];;
    set_WCS BareBonesWCS;;
    mret false
  else mret false.

(** [for name in names: if use(name, raise_err=False): break] *)
Fixpoint probe (e : env) (names : list string) : M unit :=
  match names with
  | [] => mret tt
  | name :: rest =>
      found ← use e name false;
      if (found : bool) then mret tt else probe e rest
  end.

(** The statements at the bottom of the module, run on the module
    variables [st]. *)
Definition module_init (e : env) : M unit := fun st =>
  if negb (wcs_configured st)
  then (set_WCS BareBonesWCS;;
        probe e ["kapteyn"; "starlink"; "pyast"; "astropy"]) st
  else (st, Ok tt).

(** Importing the module: the initial variables, then the bottom of the
    module. *)
Definition loaded (e : env) : registry * result unit := module_init e initial.

End Registry.

(** ** The fallback engine, [BareBonesWCS] *)

Module BareBones.

Local Open Scope R_scope.

(** [math.radians(x)] *)
Definition radians (x : R) : R := x * (PI / 180).

(** [cmp(a, b)] on floats *)
Definition cmp (a b : R) : Z :=
  match total_order_T a b with
  | inleft (left _) => (-1)%Z
  | inleft (right _) => 0%Z
  | inright _ => 1%Z
  end.

(** [a / b] on floats *)
Definition truediv (a b : R) : result R :=
  if Req_dec_T b 0 then Raise ZeroDivisionError else Ok (a / b).

(** [assert c, WCSError(msg)] *)
Definition assert (c : bool) (msg : wcs_msg) : result unit :=
  if c then Ok tt else Raise (AssertionError msg).

Definition Rle_b (a b : R) : bool := if Rle_dec a b then true else false.
Definition Rlt_b (a b : R) : bool := if Rlt_dec a b then true else false.
Definition Rgt_b (a b : R) : bool := if Rgt_dec a b then true else false.

(** [x, y = idxs[:2]] *)
Definition unpack2 (idxs : list R) : result (R * R) :=
  match idxs with
  | x :: y :: _ => Ok (x, y)
  | _ => Raise ValueError
  end.

(** The instance attributes the methods read. *)
Record engine : Type := mk_engine {
  header : gmap string value;
  coordsys : string;
  kind : string
}.

(** [BareBonesWCS(logger)] *)
Definition init : engine :=
  {| header := ∅; coordsys := "raw"; kind := "barebones" |}.

(** One unit keyword of [BaseWCS.fix_bad_headers]. *)
Definition fix_unit (key : string) (h : gmap string value)
  : result (gmap string value) :=
  unit ← as_str "upper" (get h key (VStr "deg"));
  if String.eqb (upper unit) "DEGREE"
  then Ok (<[key := VStr "deg"]> h)
  else Ok h.

(** [BaseWCS.fix_bad_headers(self)], on the header of the instance. *)
Definition fix_bad_headers (h : gmap string value)
  : result (gmap string value) :=
  h ← fix_unit "CUNIT1" h;
  fix_unit "CUNIT2" h.

(** [BareBonesWCS.load_header(self, header)]: the instance after the
    call.  The loop copies the caller's mapping key by key, which gives
    an equal mapping. *)
Definition load_header (self : engine) (hd : gmap string value)
  : result engine :=
  h ← fix_bad_headers hd;
  sys ← Classifier.choose_coord_system h;
  Ok {| header := h; coordsys := sys; kind := kind self |}.

Section Transforms.

(** The builtin [float] on a [str]: the number it denotes, or nothing
    when Python raises [ValueError]. *)
Variable float_of_str : string -> option R.

(** [float(v)] *)
Definition float (v : value) : result R :=
  match v with
  | VFloat r => Ok r
  | VInt n => Ok (IZR n)
  | VBool b => Ok (if b then 1 else 0)
  | VStr s =>
      match float_of_str s with
      | Some r => Ok r
      | None => Raise ValueError
      end
  end.

(** [float(self.get_keyword(key))] *)
Definition float_keyword (self : engine) (key : string) : result R :=
  v ← getitem (header self) key;
  float v.

Definition get_reference_pixel (self : engine) : result (R * R) :=
  x ← float_keyword self "CRPIX1";
  y ← float_keyword self "CRPIX2";
  Ok (x, y).

Definition get_physical_reference_pixel (self : engine) : result (R * R) :=
  xv ← float_keyword self "CRVAL1";
  yv ← float_keyword self "CRVAL2";
  assert (Rle_b 0 xv && Rlt_b xv 360) (CRVAL1_out_of_range xv);;
  assert (Rle_b (-90) yv && Rle_b yv 90) (CRVAL2_out_of_range yv);;
  Ok (xv, yv).

(** The four entries of a matrix, each scaled: the two [PC] spellings. *)
Definition read_matrix (self : engine) (k11 k12 k21 k22 : string)
    (s1 s2 : R) : result (R * R * R * R) :=
  a ← float_keyword self k11;
  b ← float_keyword self k12;
  c ← float_keyword self k21;
  d ← float_keyword self k22;
  Ok (a * s1, b * s1, c * s2, d * s2).

(** The [CD] keywords, read as they are. *)
Definition read_cd (self : engine) : result (R * R * R * R) :=
  cd11 ← float_keyword self "CD1_1";
  cd12 ← float_keyword self "CD1_2";
  cd21 ← float_keyword self "CD2_1";
  cd22 ← float_keyword self "CD2_2";
  Ok (cd11, cd12, cd21, cd22).

Definition get_pixel_coordinates (self : engine) : result (R * R * R * R) :=
  except_Exception (read_cd self)
    (cdelt1 ← float_keyword self "CDELT1";
     cdelt2 ← float_keyword self "CDELT2";
     except_KeyError
       (read_matrix self "PC1_1" "PC1_2" "PC2_1" "PC2_2" cdelt1 cdelt2)
       (read_matrix self "PC001001" "PC001002" "PC002001" "PC002002"
          cdelt1 cdelt2)).

(** [BareBonesWCS.pixtoradec(self, idxs, coords='data')] *)
Definition pixtoradec (self : engine) (idxs : list R) (coords : string)
  : result (R * R) :=
  '(x, y) ← unpack2 idxs;
  let '(x, y) := if String.eqb coords "data" then (x + 1, y + 1) else (x, y) in
  '(crpix1, crpix2) ← get_reference_pixel self;
  '(crval1, crval2) ← get_physical_reference_pixel self;
  '(cd11, cd12, cd21, cd22) ← get_pixel_coordinates self;
  q ← truediv (cd11 * (x - crpix1) + cd12 * (y - crpix2))
        (cos (radians crval2));
  let ra_deg := q + crval1 in
  let dec_deg := cd21 * (x - crpix1) + cd22 * (y - crpix2) + crval2 in
  Ok (ra_deg, dec_deg).

(** [BareBonesWCS.radectopix(self, ra_deg, dec_deg, coords='data')];
    the argument [naxispath] is not read. *)
Definition radectopix (self : engine) (ra_deg dec_deg : R) (coords : string)
  : result (R * R) :=
  '(crpix1, crpix2) ← get_reference_pixel self;
  '(crval1, crval2) ← get_physical_reference_pixel self;
  '(cd11, cd12, cd21, cd22) ← get_pixel_coordinates self;
  let rmatrix := (cd11 * cd22) - (cd12 * cd21) in
  if Z.eqb (cmp rmatrix 0) 0 then Raise (WCSError WCS_Matrix_Error)
  else
    let ra_deg :=
      if Rgt_b (ra_deg - crval1) 180 then ra_deg - 360
      else if Rlt_b (ra_deg - crval1) (-180) then ra_deg + 360
      else ra_deg in
    '(x, y) ← except_Exception
      (qx ← truediv (cd22 * cos (crval2 * PI / 180) * (ra_deg - crval1)
                     - cd12 * (dec_deg - crval2)) rmatrix;
       let x := qx + crpix1 in
       qy ← truediv (cd11 * (dec_deg - crval2)
                     - cd21 * cos (crval2 * PI / 180) * (ra_deg - crval1))
              rmatrix;
       let y := qy + crpix2 in
       Ok (x, y))
      (Raise (WCSError radectopix_calculation_error));
    let '(x, y) := if String.eqb coords "data" then (x - 1, y - 1) else (x, y) in
    Ok (x, y).

End Transforms.

End BareBones.

(** ** Sample inputs *)

Module Samples.

Import Registry.

(** No backend module can be imported. *)
Definition no_backend : env := fun _ => false.

(** [astropy.coordinates] and [astropy.units] can be imported;
    [astropy.wcs] and [pywcs] cannot. *)
Definition astropy_without_wcs : env := fun m =>
  (String.eqb m "astropy.coordinates" || String.eqb m "astropy.units")%bool.

(** The modules a backend's branch of [use] needs, all importable. *)
Definition backend_available (e : env) (wcspkg : string) : bool :=
  if String.eqb wcspkg "kapteyn" then e "kapteyn.wcs"
  else if String.eqb wcspkg "starlink" then
    (e "starlink.Ast" && e "starlink.Atl")%bool
  else if String.eqb wcspkg "astlib" then
    (e "astLib.astWCS" && e "astLib.astCoords"
     && (e "astropy.io.fits" || e "pyfits"))%bool
  else if String.eqb wcspkg "astropy" then
    (((e "astropy.wcs" && e "astropy.io.fits") || e "pywcs")
     && e "astropy.coordinates" && e "astropy.units")%bool
  else false.

(** Every tag that [use] lists in some [coord_types], and ['raw']. *)
Definition known_tags : list string :=
  ["raw"; "icrs"; "fk5"; "fk4"; "galactic"; "ecliptic"; "j2000"; "b1950"].

(** A header written as its cards. *)
Definition hdr (l : list (string * value)) : gmap string value :=
  list_to_map l.

(** Right-ascension headers: with a frame, with a frame that is not FK4,
    FK5 or ICRS, with nothing else, and with an equinox alone. *)
Definition ra_fk4 : gmap string value :=
  hdr [("CTYPE1", VStr "RA---TAN"); ("RADESYS", VStr "FK4")].

Definition ra_gappt : gmap string value :=
  hdr [("CTYPE1", VStr "RA---TAN"); ("RADESYS", VStr "GAPPT")].

Definition ra_only : gmap string value :=
  hdr [("CTYPE1", VStr "RA---TAN")].

Definition ra_equinox : gmap string value :=
  hdr [("CTYPE1", VStr "RA---TAN"); ("EQUINOX", VFloat 2000)].

(** A [CTYPE1] that is a number. *)
Definition ctype_float : gmap string value :=
  hdr [("CTYPE1", VFloat 1)].

(** A [float] that takes no [str]: the sample headers below hold numbers
    only, so the builtin is never asked about a string. *)
Definition float_of_no_str : string -> option R := fun _ => None.

(** A header with the transform keywords and nothing else. *)
Definition wcs_header (crpix1 crpix2 crval1 crval2 cd11 cd12 cd21 cd22 : R)
  : gmap string value :=
  hdr [("CRPIX1", VFloat crpix1); ("CRPIX2", VFloat crpix2);
       ("CRVAL1", VFloat crval1); ("CRVAL2", VFloat crval2);
       ("CD1_1", VFloat cd11); ("CD1_2", VFloat cd12);
       ("CD2_1", VFloat cd21); ("CD2_2", VFloat cd22)].

(** The instance that [load_header] leaves for a header [h] without
    [CTYPE1] and without unit keywords. *)
Definition loaded_engine (h : gmap string value) : BareBones.engine :=
  {| BareBones.header := h;
     BareBones.coordsys := "raw";
     BareBones.kind := "barebones" |}.

(** The header of the reference-pixel scenario: one thousandth of a
    degree per pixel around pixel (50, 50) at (180, 0). *)
Definition reference_scenario : gmap string value :=
  wcs_header 50 50 180 0 (-1 / 1000) 0 0 (1 / 1000).

(** An all-sky map, one degree per pixel, whose reference pixel is the
    first one. *)
Definition all_sky : gmap string value :=
  wcs_header 1 1 0 0 1 0 0 1.

(** A singular matrix. *)
Definition singular : gmap string value :=
  wcs_header 50 50 180 0 1 2 2 4.

(** Reference positions on and off the limits. *)
Definition crval_at (crval1 crval2 : R) : gmap string value :=
  wcs_header 50 50 crval1 crval2 1 0 0 1.

End Samples.

(** ** The registry and the engine classes *)

Module RegistryExt.

Import Registry.

(** The test at the top of the [__init__] of an engine class: [true] when
    the constructor goes on, [false] when it raises the [WCSError] that
    asks to install the package.  [BareBonesWCS.__init__] makes no test. *)
Definition init_passes (c : engine_class) (st : registry) : bool :=
  match c with
  | KapteynWCS => have_kapteyn st
  | StarlinkWCS => have_starlink st
  | AstLibWCS => have_astlib st
  | AstropyWCS => have_astropy st
  | BareBonesWCS => true
  end.

(** A run of calls [use(wcspkg, raise_err)], each in the environment of its
    time; a caller that catches the [ImportError] of a call goes on with
    the module variables as the call left them. *)
Fixpoint after_calls (calls : list (env * string * bool)) (st : registry)
  : registry :=
  match calls with
  | [] => st
  | (e, wcspkg, raise_err) :: rest =>
      after_calls rest (use e wcspkg raise_err st).1
  end.

(** Whether the imports of the branch of [wcspkg] all go through: the
    lenient astropy branch goes past its first group of imports, the
    strict one does not.  A name without imports has none that go
    through. *)
Definition imports_ok (e : env) (wcspkg : string) (raise_err : bool) : bool :=
  if String.eqb wcspkg "kapteyn" then e "kapteyn.wcs"
  else if String.eqb wcspkg "starlink" then
    (e "starlink.Ast" && e "starlink.Atl")%bool
  else if String.eqb wcspkg "astlib" then
    (e "astLib.astWCS" && e "astLib.astCoords"
     && (e "astropy.io.fits" || e "pyfits"))%bool
  else if String.eqb wcspkg "astropy" then
    ((negb raise_err || (e "astropy.wcs" && e "astropy.io.fits") || e "pywcs")
     && e "astropy.coordinates" && e "astropy.units")%bool
  else false.

(** The class and the systems that the branch of a name assigns. *)
Definition class_of (wcspkg : string) : engine_class :=
  if String.eqb wcspkg "kapteyn" then KapteynWCS
  else if String.eqb wcspkg "starlink" then StarlinkWCS
  else if String.eqb wcspkg "astlib" then AstLibWCS
  else if String.eqb wcspkg "astropy" then AstropyWCS
  else BareBonesWCS.

Definition systems_of (wcspkg : string) : list string :=
  if String.eqb wcspkg "kapteyn" then
    ["icrs"; "fk5"; "fk4"; "galactic"; "ecliptic"]
  else if String.eqb wcspkg "starlink" then
    ["icrs"; "fk5"; "fk4"; "galactic"; "ecliptic"]
  else if String.eqb wcspkg "astlib" then ["j2000"; "b1950"; "galactic"]
  else if String.eqb wcspkg "astropy" then ["icrs"; "fk5"; "fk4"; "galactic"]
  else ["fk5"].

(** The four names whose branch imports something. *)
Definition imports_something (wcspkg : string) : bool :=
  existsb (String.eqb wcspkg) ["kapteyn"; "starlink"; "astlib"; "astropy"].

End RegistryExt.

(** ** The pixel conventions of [AstLibWCS] and [KapteynWCS]

    The two classes hand the transform to a native library, astLib or
    kapteyn, which is not part of the module; it is a parameter here.  A
    native call gives a sequence of numbers or throws an exception of the
    library.  Everything a [try] block of these methods can raise is
    raised again as [WCSError(e)]. *)

Module Adapters.

Local Open Scope R_scope.

Section Native.

(** The exceptions of the native library. *)
Variable X : Type.

Inductive native_result : Type :=
| Gives (l : list R)
| Throws (x : X).

(** What a [try] block caught. *)
Inductive cause : Type :=
| Native_exception (x : X)
| Caught_IndexError
| Caught_ValueError
| Caught_AttributeError.

Inductive raised : Type :=
| WCSError_of (c : cause)
| IndexError.

Inductive outcome (A : Type) : Type :=
| Returns (a : A)
| Raises (r : raised).
Arguments Returns {A} a.
Arguments Raises {A} r.

(** [self.wcs] of an [AstLibWCS]: astLib counts pixels from 0 (the module
    sets [NUMPY_MODE]). *)
Record astlib_wcs : Type := {
  pix2wcs : R -> R -> native_result;
  wcs2pix : R -> R -> native_result
}.

(** [self.wcs] of a [KapteynWCS]: kapteyn counts pixels from 1. *)
Record kapteyn_wcs : Type := {
  toworld : list R -> native_result;
  topixel : list R -> native_result
}.

(** [a, b = l] inside a [try]: exactly two values. *)
Definition unpack_exactly2 (l : list R) : outcome (R * R) :=
  match l with
  | [a; b] => Returns (a, b)
  | _ => Raises (WCSError_of Caught_ValueError)
  end.

(** [AstLibWCS.pixtoradec(self, idxs, coords='data')]; [wcs] is [None]
    when no header was loaded or the load failed. *)
Definition AstLibWCS_pixtoradec (wcs : option astlib_wcs) (idxs : list R)
    (coords : string) : outcome (R * R) :=
  let idxs :=
    if String.eqb coords "fits" then map (fun x => x - 1) idxs else idxs in
  match wcs with
  | None => Raises (WCSError_of Caught_AttributeError)
  | Some w =>
      match idxs with
      | i0 :: i1 :: _ =>
          match pix2wcs w i0 i1 with
          | Gives l => unpack_exactly2 l
          | Throws x => Raises (WCSError_of (Native_exception x))
          end
      | _ => Raises (WCSError_of Caught_IndexError)
      end
  end.

(** [AstLibWCS.radectopix(self, ra_deg, dec_deg, coords='data')]; the
    argument [naxispath] is not read. *)
Definition AstLibWCS_radectopix (wcs : option astlib_wcs) (ra_deg dec_deg : R)
    (coords : string) : outcome (R * R) :=
  match wcs with
  | None => Raises (WCSError_of Caught_AttributeError)
  | Some w =>
      match wcs2pix w ra_deg dec_deg with
      | Gives l =>
          match unpack_exactly2 l with
          | Returns (x, y) =>
              if String.eqb coords "fits" then Returns (x + 1, y + 1)
              else Returns (x, y)
          | Raises r => Raises r
          end
      | Throws x => Raises (WCSError_of (Native_exception x))
      end
  end.

(** [KapteynWCS.pixtoradec(self, idxs, coords='data')] *)
Definition KapteynWCS_pixtoradec (wcs : option kapteyn_wcs) (idxs : list R)
    (coords : string) : outcome (R * R) :=
  let idxs :=
    if String.eqb coords "data" then map (fun x => x + 1) idxs else idxs in
  match wcs with
  | None => Raises (WCSError_of Caught_AttributeError)
  | Some w =>
      match toworld w idxs with
      | Gives res =>
          match res with
          | ra_deg :: dec_deg :: _ => Returns (ra_deg, dec_deg)
          | _ => Raises (WCSError_of Caught_IndexError)
          end
      | Throws x => Raises (WCSError_of (Native_exception x))
      end
  end.

(** [KapteynWCS.radectopix(self, ra_deg, dec_deg, coords='data',
    naxispath=None)]; [naxispath] is a list, empty for [None].  The two
    pixel values are taken after the [try]. *)
Definition KapteynWCS_radectopix (wcs : option kapteyn_wcs)
    (ra_deg dec_deg : R) (coords : string) (naxispath : list R)
  : outcome (R * R) :=
  let args := [ra_deg; dec_deg] ++ repeat 0 (length naxispath) in
  match wcs with
  | None => Raises (WCSError_of Caught_AttributeError)
  | Some w =>
      match topixel w args with
      | Gives pix =>
          let pix :=
            if String.eqb coords "data" then map (fun x => x - 1) pix
            else pix in
          match pix with
          | x :: y :: _ => Returns (x, y)
          | _ => Raises IndexError
          end
      | Throws x => Raises (WCSError_of (Native_exception x))
      end
  end.

End Native.

Arguments Gives {X} l.
Arguments Throws {X} x.
Arguments Returns {X A} a.
Arguments Raises {X A} r.
Arguments WCSError_of {X} c.
Arguments pix2wcs {X} a _ _.
Arguments wcs2pix {X} a _ _.
Arguments toworld {X} k _.
Arguments topixel {X} k _.
Arguments AstLibWCS_pixtoradec {X} wcs idxs coords.
Arguments AstLibWCS_radectopix {X} wcs ra_deg dec_deg coords.
Arguments KapteynWCS_pixtoradec {X} wcs idxs coords.
Arguments KapteynWCS_radectopix {X} wcs ra_deg dec_deg coords naxispath.

(** A native pair for the samples: the same shift of the sky, counted
    from 0 by the one and from 1 by the other; neither throws. *)
Definition sample_astlib : astlib_wcs Empty_set :=
  {| pix2wcs := fun x y => Gives [x + 10; y + 20];
     wcs2pix := fun ra dec => Gives [ra - 10; dec - 20] |}.

Definition sample_kapteyn : kapteyn_wcs Empty_set :=
  {| toworld := fun l =>
       match l with
       | [x; y] => Gives [x - 1 + 10; y - 1 + 20]
       | _ => Gives []
       end;
     topixel := fun l =>
       match l with
       | [ra; dec] => Gives [ra - 10 + 1; dec - 20 + 1]
       | _ => Gives []
       end |}.

End Adapters.

(** ** More sample inputs *)

Module MoreSamples.

Import Registry Samples.

(** Only kapteyn can be imported. *)
Definition only_kapteyn : env := fun m => String.eqb m "kapteyn.wcs".

(** Everything astlib needs can be imported. *)
Definition with_astlib : env := fun m =>
  (String.eqb m "astLib.astWCS" || String.eqb m "astLib.astCoords"
   || String.eqb m "pyfits")%bool.

(** Galactic and ecliptic headers, and one whose axis type matches no
    pattern. *)
Definition glon : gmap string value :=
  hdr [("CTYPE1", VStr "GLON-CAR"); ("RADESYS", VFloat 1)].

Definition elon : gmap string value :=
  hdr [("CTYPE1", VStr "ELON-CAR")].

Definition linear : gmap string value :=
  hdr [("CTYPE1", VStr "LINEAR")].

(** The keywords the transforms of [BareBonesWCS] ask for. *)
Definition transform_keys : list string :=
  ["CRPIX1"; "CRPIX2"; "CRVAL1"; "CRVAL2";
   "CD1_1"; "CD1_2"; "CD2_1"; "CD2_2"; "CDELT1"; "CDELT2";
   "PC1_1"; "PC1_2"; "PC2_1"; "PC2_2";
   "PC001001"; "PC001002"; "PC002001"; "PC002002"].

(** An engine that holds the header [h] as it is. *)
Definition holding (h : gmap string value) : BareBones.engine :=
  {| BareBones.header := h;
     BareBones.coordsys := "raw";
     BareBones.kind := "barebones" |}.

(** The scenario header with units and an axis type, the first unit in
    the spelling that [fix_bad_headers] rewrites. *)
Definition degree_header : gmap string value :=
  <["CUNIT1" := VStr "Degree"]>
    (<["CUNIT2" := VStr "deg"]>
       (<["CTYPE1" := VStr "RA---TAN"]> reference_scenario)).

(** A unit that is a number. *)
Definition unit_float : gmap string value :=
  <["CUNIT2" := VFloat 1]> reference_scenario.

(** Headers with a [PC] matrix and [CDELT] scales, in the two spellings. *)
Definition pc_header (cdelt1 cdelt2 pc11 pc12 pc21 pc22 : R)
  : gmap string value :=
  hdr [("CRPIX1", VFloat 50); ("CRPIX2", VFloat 50);
       ("CRVAL1", VFloat 180); ("CRVAL2", VFloat 0);
       ("CDELT1", VFloat cdelt1); ("CDELT2", VFloat cdelt2);
       ("PC1_1", VFloat pc11); ("PC1_2", VFloat pc12);
       ("PC2_1", VFloat pc21); ("PC2_2", VFloat pc22)].

Definition pc_legacy_header (cdelt1 cdelt2 pc11 pc12 pc21 pc22 : R)
  : gmap string value :=
  hdr [("CRPIX1", VFloat 50); ("CRPIX2", VFloat 50);
       ("CRVAL1", VFloat 180); ("CRVAL2", VFloat 0);
       ("CDELT1", VFloat cdelt1); ("CDELT2", VFloat cdelt2);
       ("PC001001", VFloat pc11); ("PC001002", VFloat pc12);
       ("PC002001", VFloat pc21); ("PC002002", VFloat pc22)].

(** The second spelling complete, and a [PC1_1] that is no number. *)
Definition pc_legacy_bad : gmap string value :=
  <["PC1_1" := VStr "abc"]> (pc_legacy_header 2 3 1 0 0 1).

(** An engine whose header has the transform keywords of the scenario and
    a galactic axis type. *)
Definition galactic_engine : BareBones.engine :=
  {| BareBones.header := <["CTYPE1" := VStr "GLON-CAR"]> reference_scenario;
     BareBones.coordsys := "galactic";
     BareBones.kind := "barebones" |}.

(** The instance that [load_header] leaves for [degree_header]. *)
Definition degree_loaded : BareBones.engine :=
  {| BareBones.header := <["CUNIT1" := VStr "deg"]> degree_header;
     BareBones.coordsys := "icrs";
     BareBones.kind := "barebones" |}.

End MoreSamples.

(** ** The registry: properties *)

Module RegistryProps.

Import Registry Samples.

(** C10, as the claim has it, fails: [use('barebones')] does not leave
    [wcs_configured] unset for every prior state.  Where only kapteyn can
    be imported, [use('kapteyn')] returns [True] and sets the flag; the
    [use('barebones')] that follows installs [BareBonesWCS] and returns
    [False], and the flag is still [True]. *)
Lemma use_barebones_after_kapteyn :
  let st := (use MoreSamples.only_kapteyn "kapteyn" true initial).1 in
  let r := use MoreSamples.only_kapteyn "barebones" true st in
  (use MoreSamples.only_kapteyn "kapteyn" true initial).2 = Ok true
  ∧ r.2 = Ok false
  ∧ WCS r.1 = Some BareBonesWCS
  ∧ wcs_configured r.1 = true
  ∧ ¬ (∀ (e : env) (raise_err : bool) (st : registry),
         wcs_configured (use e "barebones" raise_err st).1 = false).
Proof.
  assert (E : wcs_configured
                (use MoreSamples.only_kapteyn "barebones" true
                   (use MoreSamples.only_kapteyn "kapteyn" true initial).1).1
              = true) by (by vm_compute).
  cbv zeta. split; [by vm_compute|]. split; [by vm_compute|].
  split; [by vm_compute|]. split; [exact E|].
  intros H. rewrite H in E. discriminate E.
Qed.

(** C10, amended.  Whatever the module variables are, [use('barebones')]
    makes [BareBonesWCS] the engine class and ['fk5'] the only supported
    system, returns [False], and does not write [wcs_configured]: the flag
    keeps the value it had, so it is [False] after the call when it was
    [False] before, as it is when the call is the first one. *)
Theorem use_barebones (e : env) (raise_err : bool) (st : registry) :
  let r := use e "barebones" raise_err st in
  r.2 = Ok false
  ∧ WCS r.1 = Some BareBonesWCS
  ∧ coord_types r.1 = ["fk5"]
  ∧ wcs_configured r.1 = wcs_configured st
  ∧ wcs_configured (use e "barebones" raise_err initial).1 = false.
Proof. by cbv. Qed.

(** A probe that finds nothing leaves [WCS] and [coord_types] alone. *)
Lemma probe_nothing (e : env) (st : registry) :
  e "kapteyn.wcs" = false ->
  (e "starlink.Ast" && e "starlink.Atl")%bool = false ->
  (e "astropy.coordinates" && e "astropy.units")%bool = false ->
  let r := probe e ["kapteyn"; "starlink"; "pyast"; "astropy"] st in
  r.2 = Ok tt ∧ WCS r.1 = WCS st ∧ coord_types r.1 = coord_types st.
Proof.
  intros Hk Hs Ha.
  cbv [probe use]. simpl String.eqb. cbv iota.
  cbv [mbind M_bind mret M_ret except_ImportError import_global import_local
       reraise_or_False raise].
  rewrite Hk.
  destruct (e "starlink.Ast") eqn:E1; simpl in Hs; rewrite ?Hs; simpl;
    destruct (e "astropy.wcs") eqn:E2; simpl;
    destruct (e "astropy.io.fits") eqn:E3; simpl;
    destruct (e "pywcs") eqn:E4; simpl;
    destruct (e "astropy.coordinates") eqn:E5; simpl in Ha; rewrite ?Ha;
    simpl; done.
Qed.

(** C7, on the code.  When no backend module can be imported, loading the
    module leaves [BareBonesWCS] as the engine class, and [coord_types] is
    the empty list it started as, not [['fk5']]. *)
Theorem loaded_without_backends :
  let r := loaded no_backend in
  r.2 = Ok tt
  ∧ WCS r.1 = Some BareBonesWCS
  ∧ coord_types r.1 = []
  ∧ coord_types r.1 ≠ ["fk5"].
Proof. by cbv. Qed.

(** The same for every environment in which the probes all fail. *)
Lemma loaded_none_available (e : env) :
  e "kapteyn.wcs" = false ->
  (e "starlink.Ast" && e "starlink.Atl")%bool = false ->
  (e "astropy.coordinates" && e "astropy.units")%bool = false ->
  WCS (loaded e).1 = Some BareBonesWCS ∧ coord_types (loaded e).1 = [].
Proof.
  intros Hk Hs Ha. unfold loaded, module_init. simpl negb. cbv iota.
  change ((set_WCS BareBonesWCS;; probe e ["kapteyn"; "starlink"; "pyast"; "astropy"]) initial)
    with (probe e ["kapteyn"; "starlink"; "pyast"; "astropy"]
            (set_WCS BareBonesWCS initial).1).
  destruct (probe_nothing e (set_WCS BareBonesWCS initial).1 Hk Hs Ha)
    as (_ & HW & HC).
  by rewrite HW, HC.
Qed.

(** C8, on the code.  With [astropy.coordinates] and [astropy.units]
    importable but neither [astropy.wcs] nor [pywcs], the astropy backend
    lacks a module it needs and the strict call raises [ImportError]; the
    lenient call goes past the failed import, returns [True] and replaces
    both [WCS] and [coord_types]. *)
Theorem use_astropy_lenient_falls_through (st : registry) :
  let e := astropy_without_wcs in
  backend_available e "astropy" = false
  ∧ (use e "astropy" true st).2 = Raise ImportError
  ∧ (use e "astropy" false st).2 = Ok true
  ∧ WCS (use e "astropy" false st).1 = Some AstropyWCS
  ∧ coord_types (use e "astropy" false st).1 = ["icrs"; "fk5"; "fk4"; "galactic"]
  ∧ WCS (use e "astropy" false initial).1 ≠ WCS initial
  ∧ coord_types (use e "astropy" false initial).1 ≠ coord_types initial.
Proof. by cbv. Qed.

(** What the three other branches do, and the astropy branch when its
    second group of imports fails: the strict call raises, the lenient
    call returns [False], and [WCS], [coord_types] and [wcs_configured]
    keep their values. *)
Lemma use_unavailable (e : env) (wcspkg : string) (st : registry) :
  wcspkg = "kapteyn" ∨ wcspkg = "starlink" ∨ wcspkg = "astlib"
  ∨ (wcspkg = "astropy"
     ∧ (e "astropy.coordinates" && e "astropy.units")%bool = false) ->
  backend_available e wcspkg = false ->
  (use e wcspkg true st).2 = Raise ImportError
  ∧ (use e wcspkg false st).2 = Ok false
  ∧ WCS (use e wcspkg false st).1 = WCS st
  ∧ coord_types (use e wcspkg false st).1 = coord_types st
  ∧ wcs_configured (use e wcspkg false st).1 = wcs_configured st.
Proof.
  intros [-> | [-> | [-> | [-> Hc]]]]; unfold backend_available;
    simpl String.eqb; cbv iota; intros Hu;
    cbv [use]; simpl String.eqb; cbv iota;
    cbv [mbind M_bind mret M_ret except_ImportError import_global
         import_local reraise_or_False raise].
  - by rewrite Hu.
  - destruct (e "starlink.Ast"); simpl in Hu; rewrite ?Hu; done.
  - destruct (e "astLib.astWCS"); simpl in Hu; [|done].
    destruct (e "astLib.astCoords"); simpl in Hu; [|done].
    destruct (e "astropy.io.fits"); simpl in Hu; [done|].
    by rewrite Hu.
  - destruct (e "astropy.wcs"); simpl;
      destruct (e "astropy.io.fits"); simpl;
      destruct (e "pywcs"); simpl;
      destruct (e "astropy.coordinates"); simpl in Hc; rewrite ?Hc;
      simpl in *; done.
Qed.

(** A name [use] has no branch for, as ['pyast'] in the probe order: the
    call returns [False] in both modes and writes nothing. *)
Lemma use_pyast (e : env) (raise_err : bool) (st : registry) :
  use e "pyast" raise_err st = (st, Ok false).
Proof. reflexivity. Qed.

End RegistryProps.

(** ** The classifiers: properties *)

Module ClassifierProps.

Import Classifier Samples.

Local Open Scope string_scope.

(** A subject that matches one of the three patterns matches no other:
    their literals start with different letters. *)
Lemma re_match_RA_only (s : string) :
  re_match_lit "RA---" s = true ->
  re_match_lit "GLON-" s = false ∧ re_match_lit "ELON-" s = false.
Proof.
  destruct s as [|c s]; [done|].
  cbn [re_match_lit]. intros H%andb_prop. destruct H as [H _].
  apply Ascii.eqb_eq in H. by subst c.
Qed.

Lemma lower_char_f (c : ascii) :
  lower_char c = "f"%char <-> upper_char c = "F"%char.
Proof.
  destruct c as [[] [] [] [] [] [] [] []]; vm_compute; split; congruence.
Qed.

Lemma lower_char_k (c : ascii) :
  lower_char c = "k"%char <-> upper_char c = "K"%char.
Proof.
  destruct c as [[] [] [] [] [] [] [] []]; vm_compute; split; congruence.
Qed.

Lemma lower_char_4 (c : ascii) :
  lower_char c = "4"%char <-> upper_char c = "4"%char.
Proof.
  destruct c as [[] [] [] [] [] [] [] []]; vm_compute; split; congruence.
Qed.

(** Lowercasing gives [fk4] exactly when uppercasing gives [FK4]. *)
Lemma lower_fk4 (s : string) : lower s = "fk4" <-> upper s = "FK4".
Proof.
  unfold lower, upper.
  destruct s as [|a [|b [|c [|d s]]]]; cbn [map_chars];
    try (split; discriminate).
  split; intros H; injection H as Ha Hb Hc.
  - apply lower_char_f in Ha. apply lower_char_k in Hb.
    apply lower_char_4 in Hc. by rewrite Ha, Hb, Hc.
  - apply lower_char_f in Ha. apply lower_char_k in Hb.
    apply lower_char_4 in Hc. by rewrite Ha, Hb, Hc.
Qed.

Lemma read_radecsys_frame (h : gmap string value) (v : value) :
  frame_keyword h = Some v -> read_radecsys h = Ok v.
Proof.
  unfold frame_keyword, read_radecsys, getitem.
  destruct (h !! "RADECSYS"); [by intros [= ->]|].
  cbn. by intros ->.
Qed.

Lemma read_radecsys_default (h : gmap string value) :
  frame_keyword h = None ->
  read_radecsys h
  = Ok (VStr (if h !! "EQUINOX" is Some _ then "FK5" else "ICRS")).
Proof.
  unfold frame_keyword, read_radecsys, getitem.
  destruct (h !! "RADECSYS"); [done|].
  cbn. intros ->. cbn. by destruct (h !! "EQUINOX").
Qed.

Lemma read_ctype_str (h : gmap string value) (ctype : string) :
  h !! "CTYPE1" = Some (VStr ctype) ->
  read_ctype h = Ok (upper (strip ctype)).
Proof. intros H. unfold read_ctype, getitem. by rewrite H. Qed.

(** C4, as the claim has it, fails on the module-level classifier: a frame
    other than FK4 is returned as it is spelled, in lower case, and need
    not be a frame tag at all. *)
Lemma choose_coord_system_gappt :
  choose_coord_system ra_gappt = Ok "gappt"
  ∧ ¬ In "gappt" known_tags
  ∧ ¬ (∀ h ctype frame,
         h !! "CTYPE1" = Some (VStr ctype) ->
         re_match_lit "RA---" (upper (strip ctype)) = true ->
         frame_keyword h = Some (VStr frame) ->
         upper (strip frame) ≠ "FK4" ->
         choose_coord_system h = Ok "icrs"
         ∨ choose_coord_system h = Ok "fk5").
Proof.
  split; [by vm_compute|]. split.
  - cbn. intros H. repeat destruct H as [H|H]; try discriminate H. done.
  - intros H.
    destruct (H ra_gappt "RA---TAN" "GAPPT") as [E|E];
      try (by vm_compute); vm_compute in E; discriminate E.
Qed.

(** C4, amended.  With a string [CTYPE1] that matches the right-ascension
    pattern and a string frame keyword ([RADECSYS], else [RADESYS]):
    [AstLibWCS.choose_coord_system] trims and uppercases the frame and
    returns [b1950] when it is [FK4], [j2000] otherwise; the module-level
    [choose_coord_system] returns the trimmed frame in lower case, which
    is [fk4] exactly when the trimmed, uppercased frame is [FK4]. *)
Theorem choose_coord_system_frame
    (h : gmap string value) (ctype frame : string) :
  h !! "CTYPE1" = Some (VStr ctype) ->
  re_match_lit "RA---" (upper (strip ctype)) = true ->
  frame_keyword h = Some (VStr frame) ->
  AstLibWCS_choose_coord_system h
    = Ok (if String.eqb (upper (strip frame)) "FK4" then "b1950" else "j2000")
  ∧ choose_coord_system h = Ok (lower (strip frame))
  ∧ (choose_coord_system h = Ok "fk4" <-> upper (strip frame) = "FK4").
Proof.
  intros Hc Hra Hf.
  destruct (re_match_RA_only _ Hra) as [Hg He].
  assert (Hlow : choose_coord_system h = Ok (lower (strip frame))).
  { unfold choose_coord_system.
    rewrite (read_ctype_str _ _ Hc), Hg, He, Hra.
    by rewrite (read_radecsys_frame _ _ Hf). }
  split; [|split].
  - unfold AstLibWCS_choose_coord_system.
    rewrite (read_ctype_str _ _ Hc), Hg, Hra.
    rewrite (read_radecsys_frame _ _ Hf). cbn.
    by destruct (String.eqb _ _).
  - exact Hlow.
  - rewrite Hlow. rewrite <- lower_fk4. split; [by intros [= ->]|by intros ->].
Qed.

(** The scenario of C4: [{CTYPE1: 'RA---TAN', RADESYS: 'FK4'}] is [fk4]
    for the module-level classifier and [b1950] for [AstLibWCS]. *)
Lemma choose_coord_system_frame_fk4 :
  AstLibWCS_choose_coord_system ra_fk4 = Ok "b1950"
  ∧ choose_coord_system ra_fk4 = Ok "fk4"
  ∧ (choose_coord_system ra_fk4 = Ok "fk4"
     <-> upper (strip "FK4") = "FK4").
Proof.
  apply (choose_coord_system_frame ra_fk4 "RA---TAN" "FK4"); by vm_compute.
Defined.

(** C5.  With a string [CTYPE1] that matches the right-ascension pattern
    and neither [RADECSYS] nor [RADESYS] in the header,
    [choose_coord_system] returns [fk5] when [EQUINOX] is there and [icrs]
    when it is not. *)
Theorem choose_coord_system_no_frame
    (h : gmap string value) (ctype : string) :
  h !! "CTYPE1" = Some (VStr ctype) ->
  re_match_lit "RA---" (upper (strip ctype)) = true ->
  h !! "RADECSYS" = None ->
  h !! "RADESYS" = None ->
  choose_coord_system h
  = Ok (if h !! "EQUINOX" is Some _ then "fk5" else "icrs").
Proof.
  intros Hc Hra H1 H2.
  destruct (re_match_RA_only _ Hra) as [Hg He].
  unfold choose_coord_system.
  rewrite (read_ctype_str _ _ Hc), Hg, He, Hra.
  rewrite read_radecsys_default by (unfold frame_keyword; by rewrite H1).
  by destruct (h !! "EQUINOX").
Qed.

(** The scenario of C5: [{CTYPE1: 'RA---TAN'}] alone is [icrs]; with an
    [EQUINOX] beside it the answer is [fk5]. *)
Lemma choose_coord_system_ra_only :
  choose_coord_system ra_only = Ok "icrs"
  ∧ choose_coord_system ra_equinox = Ok "fk5".
Proof.
  split.
  - apply (choose_coord_system_no_frame ra_only "RA---TAN"); by vm_compute.
  - apply (choose_coord_system_no_frame ra_equinox "RA---TAN"); by vm_compute.
Defined.

Local Ltac returns_tag := eexists; split; [reflexivity | done].

(** C9, as the claim has it, fails: a [CTYPE1] that is a float has no
    [strip], and the [AttributeError] is not caught. *)
Lemma choose_coord_system_float_ctype :
  choose_coord_system ctype_float = Raise (AttributeError "strip")
  ∧ ¬ (∀ h : gmap string value, ∃ tag, choose_coord_system h = Ok tag).
Proof.
  split; [by vm_compute|].
  intros H. destruct (H ctype_float) as [tag E].
  vm_compute in E. discriminate E.
Qed.

(** C9, amended.  When [CTYPE1], if present, is a string, and, when that
    string matches the right-ascension pattern, the frame keyword that is
    then read ([RADECSYS], else [RADESYS]), if present, is a string,
    [choose_coord_system] returns a tag and raises nothing; the tag is
    [raw] when [CTYPE1] is missing and [icrs] when [CTYPE1] matches none
    of the three patterns.  A frame keyword of another type does no harm
    beside a [CTYPE1] that does not match the right-ascension pattern: it
    is not read. *)
Theorem choose_coord_system_returns (h : gmap string value) :
  (∀ v, h !! "CTYPE1" = Some v -> ∃ s, v = VStr s) ->
  (∀ ctype v,
     h !! "CTYPE1" = Some (VStr ctype) ->
     re_match_lit "RA---" (upper (strip ctype)) = true ->
     frame_keyword h = Some v -> ∃ s, v = VStr s) ->
  ∃ tag, choose_coord_system h = Ok tag
         ∧ (h !! "CTYPE1" = None -> tag = "raw")
         ∧ (∀ ctype,
              h !! "CTYPE1" = Some (VStr ctype) ->
              re_match_lit "GLON-" (upper (strip ctype)) = false ->
              re_match_lit "ELON-" (upper (strip ctype)) = false ->
              re_match_lit "RA---" (upper (strip ctype)) = false ->
              tag = "icrs").
Proof.
  intros Hc Hf. unfold choose_coord_system.
  destruct (h !! "CTYPE1") as [v|] eqn:E.
  2:{ unfold read_ctype, getitem. rewrite E. by eexists. }
  destruct (Hc v eq_refl) as [s ->].
  rewrite (read_ctype_str _ _ E).
  destruct (re_match_lit "GLON-" (upper (strip s))) eqn:Hg.
  { eexists. split; [reflexivity|]. split; [done|].
    intros c [= <-] Hg' _ _. rewrite Hg in Hg'. discriminate Hg'. }
  destruct (re_match_lit "ELON-" (upper (strip s))) eqn:He.
  { eexists. split; [reflexivity|]. split; [done|].
    intros c [= <-] _ He' _. rewrite He in He'. discriminate He'. }
  destruct (re_match_lit "RA---" (upper (strip s))) eqn:Hra.
  2:{ eexists. split; [reflexivity|]. by split. }
  assert (Hno : ∀ tag : string,
            (∀ c, Some (VStr s) = Some (VStr c) ->
                  re_match_lit "GLON-" (upper (strip c)) = false ->
                  re_match_lit "ELON-" (upper (strip c)) = false ->
                  re_match_lit "RA---" (upper (strip c)) = false ->
                  tag = "icrs")).
  { intros tag c [= <-] _ _ Hra'. rewrite Hra in Hra'. discriminate Hra'. }
  destruct (frame_keyword h) as [w|] eqn:F.
  - destruct (Hf s w eq_refl Hra eq_refl) as [t ->].
    rewrite (read_radecsys_frame _ _ F).
    eexists. split; [reflexivity|]. split; [done|]. apply Hno.
  - rewrite (read_radecsys_default _ F).
    eexists. split; [reflexivity|]. split; [done|]. apply Hno.
Qed.

(** C9, amended, on three headers.  [{CTYPE1: 'GLON-CAR', RADESYS: 1.0}]
    has a float where a frame would be, and is classified all the same;
    [{CTYPE1: 'LINEAR'}] matches no pattern and is [icrs];
    [{CTYPE1: 'RA---TAN', RADESYS: 'GAPPT'}] has its frame read. *)
Lemma choose_coord_system_returns_samples :
  choose_coord_system MoreSamples.glon = Ok "galactic"
  ∧ choose_coord_system MoreSamples.linear = Ok "icrs"
  ∧ ∃ tag, choose_coord_system ra_gappt = Ok tag.
Proof.
  split; [|split].
  - destruct (choose_coord_system_returns MoreSamples.glon)
      as (tag & E & _ & _).
    + vm_compute. intros v [= <-]. by eexists.
    + vm_compute. intros c v [= <-] Hra. discriminate Hra.
    + rewrite E. vm_compute in E. symmetry. exact E.
  - destruct (choose_coord_system_returns MoreSamples.linear)
      as (tag & E & _ & Hi).
    + vm_compute. intros v [= <-]. by eexists.
    + vm_compute. intros c v [= <-] Hra. discriminate Hra.
    + rewrite E. f_equal. apply (Hi "LINEAR"); by vm_compute.
  - destruct (choose_coord_system_returns ra_gappt) as (tag & E & _ & _).
    + vm_compute. intros v [= <-]. by eexists.
    + vm_compute. intros c v _ _ [= <-]. by eexists.
    + by exists tag.
Defined.

End ClassifierProps.


(** ** The fallback engine: properties *)

Module BareBonesProps.

Import BareBones Samples.

Local Open Scope R_scope.

Lemma Rle_b_true (a b : R) : a <= b -> Rle_b a b = true.
Proof. intros H. unfold Rle_b. by destruct (Rle_dec a b). Qed.

Lemma Rle_b_false (a b : R) : ¬ a <= b -> Rle_b a b = false.
Proof. intros H. unfold Rle_b. by destruct (Rle_dec a b). Qed.

Lemma Rlt_b_true (a b : R) : a < b -> Rlt_b a b = true.
Proof. intros H. unfold Rlt_b. by destruct (Rlt_dec a b). Qed.

Lemma Rlt_b_false (a b : R) : ¬ a < b -> Rlt_b a b = false.
Proof. intros H. unfold Rlt_b. by destruct (Rlt_dec a b). Qed.

Lemma Rgt_b_true (a b : R) : a > b -> Rgt_b a b = true.
Proof. intros H. unfold Rgt_b. by destruct (Rgt_dec a b). Qed.

Lemma Rgt_b_false (a b : R) : ¬ a > b -> Rgt_b a b = false.
Proof. intros H. unfold Rgt_b. by destruct (Rgt_dec a b). Qed.

Lemma cmp_zero (a b : R) : cmp a b = 0%Z <-> a = b.
Proof.
  unfold cmp. destruct (total_order_T a b) as [[H|H]|H]; split;
    try done; intros ->; exfalso; lra.
Qed.

Lemma truediv_nonzero (a b : R) : b ≠ 0 -> truediv a b = Ok (a / b).
Proof. intros H. unfold truediv. by destruct (Req_dec_T b 0). Qed.

Lemma radians_0 : radians 0 = 0.
Proof. unfold radians. lra. Qed.

Lemma cos_radians_0 : cos (radians 0) = 1.
Proof. rewrite radians_0. apply cos_0. Qed.

Section Props.

Variable float_of_str : string -> option R.

(** *** Reading the reference position *)

Lemma get_physical_reference_pixel_eq (self : engine) (xv yv : R) :
  float_keyword float_of_str self "CRVAL1" = Ok xv ->
  float_keyword float_of_str self "CRVAL2" = Ok yv ->
  get_physical_reference_pixel float_of_str self
  = if (Rle_b 0 xv && Rlt_b xv 360)%bool
    then if (Rle_b (-90) yv && Rle_b yv 90)%bool
         then Ok (xv, yv)
         else Raise (AssertionError (CRVAL2_out_of_range yv))
    else Raise (AssertionError (CRVAL1_out_of_range xv)).
Proof.
  intros Hx Hy. unfold BareBones.get_physical_reference_pixel.
  rewrite Hx, Hy. cbn.
  destruct (Rle_b 0 xv && Rlt_b xv 360)%bool; [|done]. cbn.
  by destruct (Rle_b (-90) yv && Rle_b yv 90)%bool.
Qed.

Lemma get_physical_reference_pixel_in_range (self : engine) (xv yv : R) :
  float_keyword float_of_str self "CRVAL1" = Ok xv ->
  float_keyword float_of_str self "CRVAL2" = Ok yv ->
  0 <= xv < 360 -> -90 <= yv <= 90 ->
  get_physical_reference_pixel float_of_str self = Ok (xv, yv).
Proof.
  intros Hx Hy [H1 H2] [H3 H4].
  rewrite (get_physical_reference_pixel_eq _ _ _ Hx Hy).
  by rewrite !Rle_b_true, Rlt_b_true.
Qed.

Lemma get_physical_reference_pixel_out_of_range (self : engine) (xv yv : R) :
  float_keyword float_of_str self "CRVAL1" = Ok xv ->
  float_keyword float_of_str self "CRVAL2" = Ok yv ->
  ¬ (0 <= xv < 360 ∧ -90 <= yv <= 90) ->
  ∃ msg, get_physical_reference_pixel float_of_str self = Raise (AssertionError msg).
Proof.
  intros Hx Hy Hn.
  rewrite (get_physical_reference_pixel_eq _ _ _ Hx Hy).
  unfold Rle_b, Rlt_b.
  destruct (Rle_dec 0 xv), (Rlt_dec xv 360); cbn; try by eexists.
  destruct (Rle_dec (-90) yv), (Rle_dec yv 90); cbn; try by eexists.
  exfalso. apply Hn. lra.
Qed.

(** *** What the two transforms compute *)

Lemma pixtoradec_eq (self : engine) (x y : R) (rest : list R)
    (coords : string) (crpix1 crpix2 crval1 crval2 cd11 cd12 cd21 cd22 : R) :
  get_reference_pixel float_of_str self = Ok (crpix1, crpix2) ->
  get_physical_reference_pixel float_of_str self = Ok (crval1, crval2) ->
  get_pixel_coordinates float_of_str self = Ok (cd11, cd12, cd21, cd22) ->
  cos (radians crval2) ≠ 0 ->
  let x' := if String.eqb coords "data" then x + 1 else x in
  let y' := if String.eqb coords "data" then y + 1 else y in
  pixtoradec float_of_str self (x :: y :: rest) coords
  = Ok ((cd11 * (x' - crpix1) + cd12 * (y' - crpix2)) / cos (radians crval2)
        + crval1,
        cd21 * (x' - crpix1) + cd22 * (y' - crpix2) + crval2).
Proof.
  intros Hp Hv Hcd Hcos. unfold BareBones.pixtoradec. cbn [unpack2].
  cbn [mbind result_bind bind].
  destruct (String.eqb coords "data"); cbn zeta;
    rewrite Hp; cbn [mbind result_bind bind];
    rewrite Hv; cbn [mbind result_bind bind];
    rewrite Hcd; cbn [mbind result_bind bind];
    by rewrite truediv_nonzero.
Qed.

Lemma radectopix_eq (self : engine) (ra_deg dec_deg : R) (coords : string)
    (crpix1 crpix2 crval1 crval2 cd11 cd12 cd21 cd22 : R) :
  get_reference_pixel float_of_str self = Ok (crpix1, crpix2) ->
  get_physical_reference_pixel float_of_str self = Ok (crval1, crval2) ->
  get_pixel_coordinates float_of_str self = Ok (cd11, cd12, cd21, cd22) ->
  cd11 * cd22 - cd12 * cd21 ≠ 0 ->
  let ra := if Rgt_b (ra_deg - crval1) 180 then ra_deg - 360
            else if Rlt_b (ra_deg - crval1) (-180) then ra_deg + 360
            else ra_deg in
  let x := (cd22 * cos (crval2 * PI / 180) * (ra - crval1)
            - cd12 * (dec_deg - crval2)) / (cd11 * cd22 - cd12 * cd21)
           + crpix1 in
  let y := (cd11 * (dec_deg - crval2)
            - cd21 * cos (crval2 * PI / 180) * (ra - crval1))
           / (cd11 * cd22 - cd12 * cd21) + crpix2 in
  radectopix float_of_str self ra_deg dec_deg coords
  = Ok (if String.eqb coords "data" then (x - 1, y - 1) else (x, y)).
Proof.
  intros Hp Hv Hcd Hdet. unfold BareBones.radectopix.
  rewrite Hp; cbn [mbind result_bind bind].
  rewrite Hv; cbn [mbind result_bind bind].
  rewrite Hcd; cbn [mbind result_bind bind].
  destruct (Z.eqb_spec (cmp (cd11 * cd22 - cd12 * cd21) 0) 0) as [E|_].
  { apply cmp_zero in E. done. }
  rewrite !truediv_nonzero by done. cbn.
  by destruct (String.eqb coords "data").
Qed.

Lemma pixtoradec_needs_reference (self : engine) (idxs : list R)
    (coords : string) (e : exn) :
  get_physical_reference_pixel float_of_str self = Raise e ->
  is_ok (pixtoradec float_of_str self idxs coords) = false.
Proof.
  intros Hv. unfold BareBones.pixtoradec.
  destruct (unpack2 idxs) as [[x y]|]; [|done]. cbn [mbind result_bind bind].
  destruct (String.eqb coords "data");
    (destruct (get_reference_pixel float_of_str self) as [[p q]|]; [|done]);
    cbn [mbind result_bind bind]; by rewrite Hv.
Qed.

Lemma radectopix_needs_reference (self : engine) (ra_deg dec_deg : R)
    (coords : string) (e : exn) :
  get_physical_reference_pixel float_of_str self = Raise e ->
  is_ok (radectopix float_of_str self ra_deg dec_deg coords) = false.
Proof.
  intros Hv. unfold BareBones.radectopix.
  destruct (get_reference_pixel float_of_str self) as [[p q]|]; [|done].
  cbn [mbind result_bind bind]. by rewrite Hv.
Qed.

(** *** The claims *)

(** C6.  With [CRVAL1] and [CRVAL2] read as the numbers [xv] and [yv]:
    [get_physical_reference_pixel] returns them when [0 <= xv < 360] and
    [-90 <= yv <= 90], the limits 0, -90 and 90 included and 360 excluded;
    outside it raises the assertion's error, and then neither [pixtoradec]
    nor [radectopix] returns a result. *)
Theorem get_physical_reference_pixel_limits (self : engine) (xv yv : R) :
  float_keyword float_of_str self "CRVAL1" = Ok xv ->
  float_keyword float_of_str self "CRVAL2" = Ok yv ->
  (0 <= xv < 360 ∧ -90 <= yv <= 90 ->
   get_physical_reference_pixel float_of_str self = Ok (xv, yv))
  ∧ (¬ (0 <= xv < 360 ∧ -90 <= yv <= 90) ->
     (∃ msg, get_physical_reference_pixel float_of_str self
             = Raise (AssertionError msg))
     ∧ ∀ idxs ra_deg dec_deg coords,
         is_ok (pixtoradec float_of_str self idxs coords) = false
         ∧ is_ok (radectopix float_of_str self ra_deg dec_deg coords) = false).
Proof.
  intros Hx Hy. split.
  - intros [H1 H2]. by apply get_physical_reference_pixel_in_range.
  - intros Hn.
    destruct (get_physical_reference_pixel_out_of_range _ _ _ Hx Hy Hn)
      as [msg E].
    split; [by exists msg|]. intros idxs ra_deg dec_deg coords. split.
    + by apply pixtoradec_needs_reference with (e := AssertionError msg).
    + by apply radectopix_needs_reference with (e := AssertionError msg).
Qed.

(** C3.  When the matrix read from the header has
    [cd11 * cd22 - cd12 * cd21 = 0], [radectopix] returns no pixel for any
    sky position and any convention; once the reference pixel and the
    reference position are read, what it raises is the [WCSError] of the
    matrix check, before any division. *)
Theorem radectopix_singular (self : engine) (cd11 cd12 cd21 cd22 : R) :
  get_pixel_coordinates float_of_str self = Ok (cd11, cd12, cd21, cd22) ->
  cd11 * cd22 - cd12 * cd21 = 0 ->
  ∀ ra_deg dec_deg coords,
    is_ok (radectopix float_of_str self ra_deg dec_deg coords) = false
    ∧ (∀ p v,
         get_reference_pixel float_of_str self = Ok p ->
         get_physical_reference_pixel float_of_str self = Ok v ->
         radectopix float_of_str self ra_deg dec_deg coords
         = Raise (WCSError WCS_Matrix_Error)).
Proof.
  intros Hcd Hdet ra_deg dec_deg coords.
  assert (Hc : Z.eqb (cmp (cd11 * cd22 - cd12 * cd21) 0) 0 = true).
  { apply Z.eqb_eq, cmp_zero, Hdet. }
  unfold BareBones.radectopix.
  destruct (get_reference_pixel float_of_str self) as [[p1 p2]|]; cbn [mbind result_bind bind].
  2:{ split; [done|]. intros ?? [=]. }
  destruct (get_physical_reference_pixel float_of_str self) as [[v1 v2]|]; cbn [mbind result_bind bind].
  2:{ split; [done|]. intros ?? _ [=]. }
  rewrite Hcd. cbn [mbind result_bind bind]. rewrite Hc. done.
Qed.

(** The keywords of a sample header, as the engine reads them. *)
Lemma wcs_header_reads
    (crpix1 crpix2 crval1 crval2 cd11 cd12 cd21 cd22 : R) :
  let h := wcs_header crpix1 crpix2 crval1 crval2 cd11 cd12 cd21 cd22 in
  load_header init h = Ok (loaded_engine h)
  ∧ get_reference_pixel float_of_str (loaded_engine h) = Ok (crpix1, crpix2)
  ∧ float_keyword float_of_str (loaded_engine h) "CRVAL1" = Ok crval1
  ∧ float_keyword float_of_str (loaded_engine h) "CRVAL2" = Ok crval2
  ∧ get_pixel_coordinates float_of_str (loaded_engine h)
    = Ok (cd11, cd12, cd21, cd22).
Proof. repeat split; by vm_compute. Qed.

(** C2.  Once the reference pixel, the reference position and the matrix
    are read and the cosine of the reference declination is not zero,
    [pixtoradec] returns
    [(cd11*(x-crpix1) + cd12*(y-crpix2)) / cos(radians(crval2)) + crval1]
    and [cd21*(x-crpix1) + cd22*(y-crpix2) + crval2], where [x] and [y] are
    first increased by one under the ['data'] convention; and the header of
    the scenario loads, after which pixel (50, 50) of the ['fits']
    convention is sent to (180, 0). *)
Theorem pixtoradec_formula :
  (∀ (self : engine) (x y : R) (rest : list R) (coords : string)
     (crpix1 crpix2 crval1 crval2 cd11 cd12 cd21 cd22 : R),
     get_reference_pixel float_of_str self = Ok (crpix1, crpix2) ->
     get_physical_reference_pixel float_of_str self = Ok (crval1, crval2) ->
     get_pixel_coordinates float_of_str self = Ok (cd11, cd12, cd21, cd22) ->
     cos (radians crval2) ≠ 0 ->
     let x' := if String.eqb coords "data" then x + 1 else x in
     let y' := if String.eqb coords "data" then y + 1 else y in
     pixtoradec float_of_str self (x :: y :: rest) coords
     = Ok ((cd11 * (x' - crpix1) + cd12 * (y' - crpix2))
           / cos (radians crval2) + crval1,
           cd21 * (x' - crpix1) + cd22 * (y' - crpix2) + crval2))
  ∧ load_header init reference_scenario = Ok (loaded_engine reference_scenario)
  ∧ pixtoradec float_of_str (loaded_engine reference_scenario) [50; 50] "fits"
    = Ok (180, 0).
Proof.
  split; [exact pixtoradec_eq|].
  destruct (wcs_header_reads 50 50 180 0 (-1 / 1000) 0 0 (1 / 1000))
    as (Hl & Hp & Hx & Hy & Hcd).
  split; [exact Hl|].
  unfold reference_scenario.
  rewrite (pixtoradec_eq _ _ _ _ _ _ _ _ _ _ _ _ _ Hp
             (get_physical_reference_pixel_in_range _ _ _ Hx Hy
                ltac:(lra) ltac:(lra)) Hcd)
    by (rewrite cos_radians_0; lra).
  rewrite cos_radians_0. cbn [String.eqb Ascii.eqb Bool.eqb].
  f_equal. f_equal; lra.
Qed.

End Props.

(** *** The claims on sample headers *)

Local Ltac sample_reads H :=
  match goal with
  | |- context [loaded_engine ?h] =>
      let h' := eval unfold reference_scenario, all_sky, singular, crval_at in h in
      match h' with
      | wcs_header ?a ?b ?c ?d ?e ?f ?g ?i =>
          pose proof (wcs_header_reads float_of_no_str a b c d e f g i) as H;
          cbv zeta in H
      end
  end.

(** The limits of C6 on sample headers: 0 and 90 are taken, and so are a
    value just under 360 and -90; 360, a negative right ascension and a
    declination above 90 are refused. *)
Lemma get_physical_reference_pixel_limits_samples :
  get_physical_reference_pixel float_of_no_str (loaded_engine (crval_at 0 90))
  = Ok (0, 90)
  ∧ get_physical_reference_pixel float_of_no_str
      (loaded_engine (crval_at (360 - 1 / 1000000) (-90)))
    = Ok (360 - 1 / 1000000, -90)
  ∧ (∃ msg, get_physical_reference_pixel float_of_no_str
              (loaded_engine (crval_at 360 0))
            = Raise (AssertionError msg))
  ∧ (∃ msg, get_physical_reference_pixel float_of_no_str
              (loaded_engine (crval_at (-1 / 1000000) 0))
            = Raise (AssertionError msg))
  ∧ (∃ msg, get_physical_reference_pixel float_of_no_str
              (loaded_engine (crval_at 0 (90 + 1 / 1000000)))
            = Raise (AssertionError msg)).
Proof.
  repeat split.
  - apply (get_physical_reference_pixel_limits float_of_no_str
             (loaded_engine (crval_at 0 90)) 0 90);
      [by vm_compute | by vm_compute | lra].
  - apply (get_physical_reference_pixel_limits float_of_no_str
             (loaded_engine (crval_at (360 - 1 / 1000000) (-90)))
             (360 - 1 / 1000000) (-90));
      [by vm_compute | by vm_compute | lra].
  - apply (get_physical_reference_pixel_limits float_of_no_str
             (loaded_engine (crval_at 360 0)) 360 0);
      [by vm_compute | by vm_compute | lra].
  - apply (get_physical_reference_pixel_limits float_of_no_str
             (loaded_engine (crval_at (-1 / 1000000) 0)) (-1 / 1000000) 0);
      [by vm_compute | by vm_compute | lra].
  - apply (get_physical_reference_pixel_limits float_of_no_str
             (loaded_engine (crval_at 0 (90 + 1 / 1000000)))
             0 (90 + 1 / 1000000));
      [by vm_compute | by vm_compute | lra].
Defined.

(** C3 on a sample header: the matrix ((1, 2), (2, 4)) has determinant
    zero, and [radectopix] raises the [WCSError] of the matrix check. *)
Lemma radectopix_singular_sample :
  1 * 4 - 2 * 2 = 0
  ∧ radectopix float_of_no_str (loaded_engine singular) 181 1 "data"
    = Raise (WCSError WCS_Matrix_Error).
Proof.
  split; [lra|].
  sample_reads H. destruct H as (_ & Hp & Hx & Hy & Hcd).
  eapply (radectopix_singular float_of_no_str (loaded_engine singular)
            1 2 2 4 Hcd ltac:(lra) 181 1 "data").
  - exact Hp.
  - apply (get_physical_reference_pixel_in_range _ _ _ _ Hx Hy); lra.
Defined.

(** C2 on the scenario header, ['data'] convention: pixel (59, 49) is pixel
    (60, 50) of the file. *)
Lemma pixtoradec_formula_sample :
  pixtoradec float_of_no_str (loaded_engine reference_scenario) [59; 49] "data"
  = Ok ((-1 / 1000 * (59 + 1 - 50) + 0 * (49 + 1 - 50)) / cos (radians 0) + 180,
        0 * (59 + 1 - 50) + 1 / 1000 * (49 + 1 - 50) + 0).
Proof.
  sample_reads H. destruct H as (_ & Hp & Hx & Hy & Hcd).
  apply (proj1 (pixtoradec_formula float_of_no_str)
           (loaded_engine reference_scenario) 59 49 [] "data"
           50 50 180 0 (-1 / 1000) 0 0 (1 / 1000) Hp).
  - apply (get_physical_reference_pixel_in_range _ _ _ _ Hx Hy); lra.
  - exact Hcd.
  - rewrite cos_radians_0. lra.
Defined.

(** The round trip of C1.  The claim bounds a rounding error, which this
    embedding, whose numbers are real numbers, cannot state.  What it can
    show is where [radectopix] does not undo [pixtoradec] whatever the
    rounding: on an all-sky map of one degree per pixel whose reference
    pixel is the first one, pixel (200, 1) is sent to right ascension 199,
    which [radectopix] first moves to -161, and comes back as pixel
    (-160, 1).  Every number of this computation is a small integer, so a
    [float] holds it exactly.  The round trip therefore does not hold on
    the 360 by 180 pixels of the map, with any tolerance under 360
    pixels. *)
Lemma radectopix_pixtoradec_all_sky :
  let self := loaded_engine all_sky in
  load_header init all_sky = Ok self
  ∧ 1 * 1 - 0 * 0 ≠ 0
  ∧ cos (radians 0) ≠ 0
  ∧ pixtoradec float_of_no_str self [200; 1] "fits" = Ok (199, 0)
  ∧ radectopix float_of_no_str self 199 0 "fits" = Ok (-160, 1)
  ∧ pixtoradec float_of_no_str self [199; 0] "data" = Ok (199, 0)
  ∧ radectopix float_of_no_str self 199 0 "data" = Ok (-161, 0)
  ∧ ¬ (∀ x y : R, 1 <= x <= 360 -> 1 <= y <= 180 ->
         ∃ ra_deg dec_deg x2 y2,
           pixtoradec float_of_no_str self [x; y] "fits" = Ok (ra_deg, dec_deg)
           ∧ radectopix float_of_no_str self ra_deg dec_deg "fits" = Ok (x2, y2)
           ∧ Rabs (x2 - x) <= 1 / 1000000
           ∧ Rabs (y2 - y) <= 1 / 1000000).
Proof.
  intros self. subst self.
  sample_reads H. destruct H as (Hl & Hp & Hx & Hy & Hcd).
  pose proof (get_physical_reference_pixel_in_range _ _ _ _ Hx Hy
                ltac:(lra) ltac:(lra)) as Hv.
  assert (Hdet : 1 * 1 - 0 * 0 ≠ 0) by lra.
  assert (Hcos : cos (radians 0) ≠ 0) by (rewrite cos_radians_0; lra).
  assert (Hcos' : cos (0 * PI / 180) = 1).
  { replace (0 * PI / 180) with 0 by field. apply cos_0. }
  assert (Hfw : ∀ coords x y, String.eqb coords "data" = false ->
            pixtoradec float_of_no_str (loaded_engine all_sky) [x; y] coords
            = Ok (x - 1, y - 1)).
  { intros coords x y E.
    rewrite (pixtoradec_eq _ _ _ _ _ _ _ _ _ _ _ _ _ _ Hp Hv Hcd Hcos).
    rewrite E, cos_radians_0. f_equal. f_equal; field. }
  assert (Hbw : ∀ coords, radectopix float_of_no_str (loaded_engine all_sky) 199 0 coords
            = Ok (if String.eqb coords "data" then (-161, 0) else (-160, 1))).
  { intros coords.
    rewrite (radectopix_eq _ _ _ _ _ _ _ _ _ _ _ _ _ Hp Hv Hcd Hdet).
    rewrite Rgt_b_true by lra. rewrite Hcos'.
    destruct (String.eqb coords "data"); f_equal; f_equal; field. }
  split; [exact Hl|]. split; [exact Hdet|]. split; [exact Hcos|].
  split. { rewrite Hfw by done. f_equal. f_equal; lra. }
  split. { by rewrite Hbw. }
  split. { rewrite (pixtoradec_eq _ _ _ _ _ _ _ _ _ _ _ _ _ _ Hp Hv Hcd Hcos).
           rewrite cos_radians_0. cbn [String.eqb Ascii.eqb Bool.eqb].
           f_equal. f_equal; field. }
  split. { by rewrite Hbw. }
  intros Hall.
  destruct (Hall 200 1 ltac:(lra) ltac:(lra)) as (ra & dec & x2 & y2 & E1 & E2 & Hx2 & _).
  rewrite Hfw in E1 by done. injection E1 as <- <-.
  replace (200 - 1) with 199 in E2 by lra.
  replace (1 - 1) with 0 in E2 by lra.
  rewrite Hbw in E2. cbn in E2. injection E2 as <- <-.
  unfold Rabs in Hx2. destruct (Rcase_abs (-160 - 200)); lra.
Qed.

End BareBonesProps.

(** ** The registry: further properties *)

Module RegistryMore.

Import Registry RegistryExt Samples MoreSamples.

(** Evaluates a call of [use] on a literal name, by cases on what the
    environment [e] can import; the sets of bound names are left as they
    are written. *)
Local Ltac eval_use e :=
  cbv [use imports_ok class_of systems_of imports_something existsb];
  cbn [String.eqb Ascii.eqb Bool.eqb];
  cbv [mbind M_bind mret M_ret except_ImportError import_global import_local
       reraise_or_False raise];
  repeat match goal with
    | |- context [e ?m] => destruct (e m) eqn:?
    end;
  cbv [set_coord_types set_wcs_configured set_have_kapteyn set_have_astlib
       set_have_astropy set_have_starlink set_WCS set_NUMPY_MODE
       coord_types wcs_configured have_kapteyn have_astlib have_pywcs
       have_astropy have_starlink WCS bound NUMPY_MODE
       fst snd orb andb negb].

(** What one call returns and assigns, read branch by branch. *)
Lemma use_outcome (e : env) (wcspkg : string) (raise_err : bool)
    (st : registry) :
  let ok := imports_ok e wcspkg raise_err in
  let set := (ok || String.eqb wcspkg "barebones")%bool in
  let st' := (use e wcspkg raise_err st).1 in
  (use e wcspkg raise_err st).2
  = (if ok then Ok true
     else if (raise_err && imports_something wcspkg)%bool
          then Raise ImportError else Ok false)
  ∧ WCS st' = (if set then Some (class_of wcspkg) else WCS st)
  ∧ coord_types st' = (if set then systems_of wcspkg else coord_types st)
  ∧ wcs_configured st' = (ok || wcs_configured st)%bool
  ∧ have_kapteyn st'
    = (ok && String.eqb wcspkg "kapteyn" || have_kapteyn st)%bool
  ∧ have_starlink st'
    = (ok && String.eqb wcspkg "starlink" || have_starlink st)%bool
  ∧ have_astlib st'
    = (ok && String.eqb wcspkg "astlib" || have_astlib st)%bool
  ∧ have_astropy st'
    = (ok && String.eqb wcspkg "astropy" || have_astropy st)%bool
  ∧ have_pywcs st' = have_pywcs st
  ∧ NUMPY_MODE st'
    = (ok && String.eqb wcspkg "astlib" || NUMPY_MODE st)%bool.
Proof.
  cbv zeta.
  destruct (use e wcspkg raise_err st) as [st' r] eqn:E. cbn [fst snd].
  revert E.
  destruct (String.eqb_spec wcspkg "kapteyn") as [->|H1];
    [destruct st, raise_err; eval_use e; intros [= <- <-]; repeat split|].
  destruct (String.eqb_spec wcspkg "starlink") as [->|H2];
    [destruct st, raise_err; eval_use e; intros [= <- <-]; repeat split|].
  destruct (String.eqb_spec wcspkg "astlib") as [->|H3];
    [destruct st, raise_err; eval_use e; intros [= <- <-]; repeat split|].
  destruct (String.eqb_spec wcspkg "astropy") as [->|H4];
    [destruct st, raise_err; eval_use e; intros [= <- <-]; repeat split|].
  destruct (String.eqb_spec wcspkg "barebones") as [->|H5];
    [destruct st, raise_err; eval_use e; intros [= <- <-]; repeat split|].
  apply String.eqb_neq in H1, H2, H3, H4, H5.
  unfold use, imports_ok, class_of, systems_of, imports_something, existsb.
  rewrite H1, H2, H3, H4, H5. intros [= <- <-].
  rewrite Bool.andb_false_r. by destruct st.
Qed.

(** A branch whose imports go through belongs to one of the four backend
    names, and sets the flag that the constructor of its class tests. *)
Lemma imports_ok_passes (e : env) (wcspkg : string) (raise_err : bool)
    (st : registry) :
  imports_ok e wcspkg raise_err = true ->
  init_passes (class_of wcspkg) (use e wcspkg raise_err st).1 = true
  ∧ wcspkg ≠ "barebones".
Proof.
  intros Hok.
  destruct (use_outcome e wcspkg raise_err st)
    as (_ & _ & _ & _ & Hk & Hs & Hl & Ha & _).
  rewrite Hok in Hk, Hs, Hl, Ha. revert Hok. unfold imports_ok, class_of.
  destruct (String.eqb_spec wcspkg "kapteyn") as [->|H1];
    [intros _; split; [cbn [init_passes]; rewrite Hk; reflexivity|done]|].
  destruct (String.eqb_spec wcspkg "starlink") as [->|H2];
    [intros _; split; [cbn [init_passes]; rewrite Hs; reflexivity|done]|].
  destruct (String.eqb_spec wcspkg "astlib") as [->|H3];
    [intros _; split; [cbn [init_passes]; rewrite Hl; reflexivity|done]|].
  destruct (String.eqb_spec wcspkg "astropy") as [->|H4];
    [intros _; split; [cbn [init_passes]; rewrite Ha; reflexivity|done]|].
  done.
Qed.

(** A probe picks the first name whose imports go through. *)
Lemma probe_outcome (e : env) (names : list string) (st : registry) :
  ¬ In "barebones" names ->
  (probe e names st).2 = Ok tt
  ∧ match find (fun p => imports_ok e p false) names with
    | Some p =>
        WCS (probe e names st).1 = Some (class_of p)
        ∧ coord_types (probe e names st).1 = systems_of p
        ∧ wcs_configured (probe e names st).1 = true
        ∧ init_passes (class_of p) (probe e names st).1 = true
    | None =>
        WCS (probe e names st).1 = WCS st
        ∧ coord_types (probe e names st).1 = coord_types st
        ∧ wcs_configured (probe e names st).1 = wcs_configured st
    end.
Proof.
  revert st. induction names as [|p names IH]; intros st Hbb; [done|].
  cbn [probe find]. cbv [mbind M_bind mret M_ret].
  assert (Hp : p ≠ "barebones") by (intros ->; apply Hbb; by left).
  assert (Hn : ¬ In "barebones" names) by (intros H; apply Hbb; by right).
  pose proof (use_outcome e p false st) as Hu. cbv zeta in Hu.
  pose proof (imports_ok_passes e p false st) as Hpass.
  destruct (use e p false st) as [st1 r1]. cbn [fst snd] in Hu, Hpass.
  destruct Hu as (Hr & HW & HC & Hcf & _).
  apply String.eqb_neq in Hp. rewrite Hp, Bool.orb_false_r in HW, HC.
  destruct (imports_ok e p false); cbn [orb andb] in Hr, HW, HC, Hcf.
  - rewrite Hr. cbn [fst snd]. destruct (Hpass eq_refl) as [Hi _]. done.
  - rewrite Hr. destruct (IH st1 Hn) as [IH1 IH2].
    split; [exact IH1|].
    destruct (find (fun p => imports_ok e p false) names); [exact IH2|].
    by rewrite <- HW, <- HC, <- Hcf.
Qed.

(** What importing the module leaves, by cases on what can be imported. *)
Lemma loaded_cases (e : env) :
  (loaded e).2 = Ok tt
  ∧ WCS (loaded e).1
    = Some (if e "kapteyn.wcs" then KapteynWCS
            else if (e "starlink.Ast" && e "starlink.Atl")%bool
                 then StarlinkWCS
            else if (e "astropy.coordinates" && e "astropy.units")%bool
                 then AstropyWCS
            else BareBonesWCS)
  ∧ ∃ c, WCS (loaded e).1 = Some c ∧ init_passes c (loaded e).1 = true.
Proof.
  unfold loaded, module_init. cbn [negb wcs_configured initial]. cbv iota.
  change ((set_WCS BareBonesWCS;;
           probe e ["kapteyn"; "starlink"; "pyast"; "astropy"]) initial)
    with (probe e ["kapteyn"; "starlink"; "pyast"; "astropy"]
            (set_WCS BareBonesWCS initial).1).
  destruct (probe_outcome e ["kapteyn"; "starlink"; "pyast"; "astropy"]
              (set_WCS BareBonesWCS initial).1) as [Hr Hf].
  { cbn. intros H. repeat destruct H as [H|H]; try discriminate H. done. }
  split; [exact Hr|].
  revert Hf. cbn [find]. unfold imports_ok at 1 2 3 4.
  cbn [String.eqb Ascii.eqb Bool.eqb negb orb andb].
  destruct (e "kapteyn.wcs");
    [intros (HW & _ & _ & Hi); split; [exact HW|by eexists]|].
  destruct (e "starlink.Ast" && e "starlink.Atl")%bool;
    [intros (HW & _ & _ & Hi); split; [exact HW|by eexists]|].
  destruct (e "astropy.coordinates" && e "astropy.units")%bool;
    [intros (HW & _ & _ & Hi); split; [exact HW|by eexists]|].
  intros (HW & _). rewrite HW. split; [done|]. by eexists.
Qed.

(** X1.  A lenient call never raises: [use(wcspkg, raise_err=False)]
    returns [True] or [False] for every name, in every environment and
    from every state of the module variables; so importing the module
    never raises either. *)
Theorem use_lenient_returns (e : env) (wcspkg : string) (st : registry) :
  (∃ b, (use e wcspkg false st).2 = Ok b) ∧ (loaded e).2 = Ok tt.
Proof.
  split; [|apply loaded_cases].
  destruct (use_outcome e wcspkg false st) as [Hr _]. rewrite Hr.
  destruct (imports_ok e wcspkg false); by eexists.
Qed.

(** X2.  A call that does not return [True], for a name other than
    ['barebones'], changes none of [WCS], [coord_types], [wcs_configured],
    the [have_...] flags and [astWCS.NUMPY_MODE]: whether it raises or
    returns [False], the backend that was active stays as it was. *)
Theorem use_all_or_nothing
    (e : env) (wcspkg : string) (raise_err : bool) (st : registry) :
  wcspkg ≠ "barebones" ->
  (use e wcspkg raise_err st).2 ≠ Ok true ->
  let st' := (use e wcspkg raise_err st).1 in
  WCS st' = WCS st
  ∧ coord_types st' = coord_types st
  ∧ wcs_configured st' = wcs_configured st
  ∧ have_kapteyn st' = have_kapteyn st
  ∧ have_starlink st' = have_starlink st
  ∧ have_astlib st' = have_astlib st
  ∧ have_astropy st' = have_astropy st
  ∧ NUMPY_MODE st' = NUMPY_MODE st.
Proof.
  intros Hbb Hr. cbv zeta. apply String.eqb_neq in Hbb.
  destruct (use_outcome e wcspkg raise_err st)
    as (Hr' & HW & HC & Hcf & Hk & Hs & Hl & Ha & _ & Hn).
  rewrite Hr' in Hr.
  destruct (imports_ok e wcspkg raise_err); [done|].
  rewrite Hbb in HW, HC. cbn [orb andb] in *. done.
Qed.

Lemma use_all_or_nothing_kapteyn :
  let st' := (use no_backend "kapteyn" false initial).1 in
  WCS st' = WCS initial
  ∧ coord_types st' = coord_types initial
  ∧ wcs_configured st' = wcs_configured initial
  ∧ have_kapteyn st' = have_kapteyn initial
  ∧ have_starlink st' = have_starlink initial
  ∧ have_astlib st' = have_astlib initial
  ∧ have_astropy st' = have_astropy initial
  ∧ NUMPY_MODE st' = NUMPY_MODE initial.
Proof.
  apply (use_all_or_nothing no_backend "kapteyn" false initial);
    by vm_compute.
Defined.


(** X4.  Importing the module picks the first backend of the order
    kapteyn, starlink, astropy whose modules can be imported, and the
    fallback class when there is none; astlib is not in the order, so
    [AstLibWCS] is never picked by the import. *)
Theorem loaded_picks_in_order (e : env) :
  WCS (loaded e).1
  = Some (if e "kapteyn.wcs" then KapteynWCS
          else if (e "starlink.Ast" && e "starlink.Atl")%bool then StarlinkWCS
          else if (e "astropy.coordinates" && e "astropy.units")%bool
               then AstropyWCS
          else BareBonesWCS)
  ∧ WCS (loaded e).1 ≠ Some AstLibWCS.
Proof.
  destruct (loaded_cases e) as (_ & H & _). split; [exact H|].
  rewrite H. by repeat case_match.
Qed.

(** One call keeps the flags that are set and keeps a class that passes
    the test of its constructor. *)
Lemma use_step (e : env) (wcspkg : string) (raise_err : bool) (st : registry) :
  let st' := (use e wcspkg raise_err st).1 in
  (wcs_configured st = true -> wcs_configured st' = true)
  ∧ (have_kapteyn st = true -> have_kapteyn st' = true)
  ∧ (have_starlink st = true -> have_starlink st' = true)
  ∧ (have_astlib st = true -> have_astlib st' = true)
  ∧ (have_astropy st = true -> have_astropy st' = true)
  ∧ ((∃ c, WCS st = Some c ∧ init_passes c st = true) ->
     ∃ c, WCS st' = Some c ∧ init_passes c st' = true).
Proof.
  cbv zeta.
  pose proof (imports_ok_passes e wcspkg raise_err st) as Hpass.
  destruct (use_outcome e wcspkg raise_err st)
    as (_ & HW & _ & Hcf & Hk & Hs & Hl & Ha & _).
  assert (Hm : ∀ b f f' : bool, f' = (b || f)%bool -> f = true -> f' = true).
  { intros b f f' -> ->. by destruct b. }
  repeat (split; [by eapply Hm|]).
  intros (c & Hc & Hp). rewrite HW.
  destruct (imports_ok e wcspkg raise_err) eqn:Hok; cbn [orb].
  - exists (class_of wcspkg). split; [done|]. by apply Hpass.
  - destruct (String.eqb_spec wcspkg "barebones") as [->|Hbb].
    + by exists BareBonesWCS.
    + exists c. split; [done|].
      destruct c; cbn [init_passes] in *;
        [ eapply Hm; [exact Hk|exact Hp]
        | eapply Hm; [exact Hs|exact Hp]
        | eapply Hm; [exact Hl|exact Hp]
        | eapply Hm; [exact Ha|exact Hp]
        | reflexivity ].
Qed.

(** X5.  [use] never clears a flag: [wcs_configured] and each [have_...]
    that is [True] before a call is [True] after it, whatever the name,
    the mode and the outcome; in particular [use('barebones')] after a
    native backend leaves [wcs_configured] set. *)
Theorem use_keeps_flags
    (e : env) (wcspkg : string) (raise_err : bool) (st : registry) :
  let st' := (use e wcspkg raise_err st).1 in
  (wcs_configured st = true -> wcs_configured st' = true)
  ∧ (have_kapteyn st = true -> have_kapteyn st' = true)
  ∧ (have_starlink st = true -> have_starlink st' = true)
  ∧ (have_astlib st = true -> have_astlib st' = true)
  ∧ (have_astropy st = true -> have_astropy st' = true).
Proof.
  destruct (use_step e wcspkg raise_err st) as (H1 & H2 & H3 & H4 & H5 & _).
  done.
Qed.

Lemma use_keeps_flags_barebones :
  let st := (use only_kapteyn "kapteyn" true initial).1 in
  wcs_configured (use no_backend "barebones" true st).1 = true
  ∧ have_kapteyn (use no_backend "barebones" true st).1 = true.
Proof.
  intros st.
  destruct (use_keeps_flags no_backend "barebones" true st)
    as (H1 & H2 & _).
  split; [apply H1 | apply H2]; by vm_compute.
Defined.

(** X6.  After the import and any run of [use] calls, [WCS] names a class
    and that class passes the availability test at the top of its
    constructor: the active class never answers with the [WCSError] that
    asks to install its package. *)
Theorem active_class_constructible
    (e : env) (calls : list (env * string * bool)) :
  ∃ c, WCS (after_calls calls (loaded e).1) = Some c
       ∧ init_passes c (after_calls calls (loaded e).1) = true.
Proof.
  assert (H0 : ∃ c, WCS (loaded e).1 = Some c
                    ∧ init_passes c (loaded e).1 = true).
  { apply loaded_cases. }
  revert H0. generalize (loaded e).1 as st.
  induction calls as [|[[e' p] b] calls IH]; intros st H; [exact H|].
  cbn [after_calls]. apply IH. by apply use_step.
Qed.

(** X7.  A second call of [use] with the same arguments in the same
    environment has the outcome of the first and leaves [WCS],
    [coord_types], [wcs_configured], the [have_...] flags and
    [astWCS.NUMPY_MODE] as the first call left them. *)
Theorem use_twice
    (e : env) (wcspkg : string) (raise_err : bool) (st : registry) :
  let st1 := (use e wcspkg raise_err st).1 in
  let st2 := (use e wcspkg raise_err st1).1 in
  (use e wcspkg raise_err st1).2 = (use e wcspkg raise_err st).2
  ∧ WCS st2 = WCS st1
  ∧ coord_types st2 = coord_types st1
  ∧ wcs_configured st2 = wcs_configured st1
  ∧ have_kapteyn st2 = have_kapteyn st1
  ∧ have_starlink st2 = have_starlink st1
  ∧ have_astlib st2 = have_astlib st1
  ∧ have_astropy st2 = have_astropy st1
  ∧ NUMPY_MODE st2 = NUMPY_MODE st1.
Proof.
  cbv zeta.
  destruct (use_outcome e wcspkg raise_err st)
    as (Hr & HW & HC & Hcf & Hk & Hs & Hl & Ha & _ & Hn).
  destruct (use_outcome e wcspkg raise_err (use e wcspkg raise_err st).1)
    as (Hr' & HW' & HC' & Hcf' & Hk' & Hs' & Hl' & Ha' & _ & Hn').
  rewrite Hr', HW', HC', Hcf', Hk', Hs', Hl', Ha', Hn'.
  rewrite Hr, HW, HC, Hcf, Hk, Hs, Hl, Ha, Hn.
  destruct (imports_ok e wcspkg raise_err),
    (String.eqb wcspkg "barebones"), (String.eqb wcspkg "kapteyn"),
    (String.eqb wcspkg "starlink"), (String.eqb wcspkg "astlib"),
    (String.eqb wcspkg "astropy"); cbn [orb andb]; repeat split.
Qed.

End RegistryMore.

(** ** The classifiers: further properties *)

Module ClassifierMore.

Import Classifier Registry Samples MoreSamples.

Local Open Scope string_scope.

Lemma read_ctype_lookup (h1 h2 : gmap string value) :
  h1 !! "CTYPE1" = h2 !! "CTYPE1" -> read_ctype h1 = read_ctype h2.
Proof. intros H. unfold read_ctype, getitem. by rewrite H. Qed.

Lemma read_radecsys_lookup (h1 h2 : gmap string value) :
  h1 !! "RADECSYS" = h2 !! "RADECSYS" ->
  h1 !! "RADESYS" = h2 !! "RADESYS" ->
  (is_Some (h1 !! "EQUINOX") <-> is_Some (h2 !! "EQUINOX")) ->
  read_radecsys h1 = read_radecsys h2.
Proof.
  intros H1 H2 H3. unfold read_radecsys, getitem. rewrite H1, H2.
  destruct (h2 !! "RADECSYS"); [done|].
  destruct (h2 !! "RADESYS"); [done|]. cbn.
  destruct (h1 !! "EQUINOX") as [v1|], (h2 !! "EQUINOX") as [v2|]; cbn;
    try done.
  - destruct H3 as [H3 _]. by destruct H3 as [? [=]].
  - destruct H3 as [_ H3]. by destruct H3 as [? [=]].
Qed.

(** X8.  Both classifiers read four keywords and nothing else: two headers
    with the same [CTYPE1], [RADECSYS] and [RADESYS], and that both have
    or both lack [EQUINOX] (whatever its value), get the same answer,
    exception included. *)
Theorem classifiers_read_four_keywords (h1 h2 : gmap string value) :
  h1 !! "CTYPE1" = h2 !! "CTYPE1" ->
  h1 !! "RADECSYS" = h2 !! "RADECSYS" ->
  h1 !! "RADESYS" = h2 !! "RADESYS" ->
  (is_Some (h1 !! "EQUINOX") <-> is_Some (h2 !! "EQUINOX")) ->
  choose_coord_system h1 = choose_coord_system h2
  ∧ AstLibWCS_choose_coord_system h1 = AstLibWCS_choose_coord_system h2.
Proof.
  intros Hc H1 H2 H3.
  unfold choose_coord_system, AstLibWCS_choose_coord_system.
  rewrite (read_ctype_lookup _ _ Hc), (read_radecsys_lookup _ _ H1 H2 H3).
  done.
Qed.

Lemma classifiers_read_four_keywords_equinox :
  choose_coord_system (<["EQUINOX" := VStr "J2000"]> (<["NAXIS" := VInt 2]> ra_equinox))
  = choose_coord_system ra_equinox
  ∧ AstLibWCS_choose_coord_system
      (<["EQUINOX" := VStr "J2000"]> (<["NAXIS" := VInt 2]> ra_equinox))
    = AstLibWCS_choose_coord_system ra_equinox.
Proof.
  apply classifiers_read_four_keywords; try by vm_compute.
  vm_compute. split; intros _; by eexists.
Defined.

(** X9.  A string [CTYPE1] that matches the galactic pattern is classified
    [galactic] by both classifiers, whatever else the header holds: the
    frame keywords are not read, so a frame that is not a string raises
    nothing here. *)
Theorem classifiers_galactic (h : gmap string value) (ctype : string) :
  h !! "CTYPE1" = Some (VStr ctype) ->
  re_match_lit "GLON-" (upper (strip ctype)) = true ->
  choose_coord_system h = Ok "galactic"
  ∧ AstLibWCS_choose_coord_system h = Ok "galactic".
Proof.
  intros Hc Hg. unfold choose_coord_system, AstLibWCS_choose_coord_system.
  by rewrite (ClassifierProps.read_ctype_str _ _ Hc), Hg.
Qed.

Lemma classifiers_galactic_glon :
  choose_coord_system glon = Ok "galactic"
  ∧ AstLibWCS_choose_coord_system glon = Ok "galactic".
Proof. apply (classifiers_galactic glon "GLON-CAR"); by vm_compute. Defined.

(** X10.  Where the two classifiers part: for a string [CTYPE1] that
    matches neither the galactic nor the right-ascension pattern, the
    module-level function answers [ecliptic] on the ecliptic pattern and
    [icrs] otherwise, and the [AstLibWCS] method answers [j2000] in both
    cases. *)
Theorem classifiers_default (h : gmap string value) (ctype : string) :
  h !! "CTYPE1" = Some (VStr ctype) ->
  re_match_lit "GLON-" (upper (strip ctype)) = false ->
  re_match_lit "RA---" (upper (strip ctype)) = false ->
  choose_coord_system h
  = Ok (if re_match_lit "ELON-" (upper (strip ctype))
        then "ecliptic" else "icrs")
  ∧ AstLibWCS_choose_coord_system h = Ok "j2000".
Proof.
  intros Hc Hg Hr. unfold choose_coord_system, AstLibWCS_choose_coord_system.
  rewrite (ClassifierProps.read_ctype_str _ _ Hc), Hg, Hr.
  by destruct (re_match_lit "ELON-" (upper (strip ctype))).
Qed.

Lemma classifiers_default_samples :
  (choose_coord_system elon = Ok "ecliptic"
   ∧ AstLibWCS_choose_coord_system elon = Ok "j2000")
  ∧ (choose_coord_system linear = Ok "icrs"
     ∧ AstLibWCS_choose_coord_system linear = Ok "j2000").
Proof.
  split.
  - apply (classifiers_default elon "ELON-CAR"); by vm_compute.
  - apply (classifiers_default linear "LINEAR"); by vm_compute.
Defined.

(** X11.  Whatever the header, a tag that [AstLibWCS.choose_coord_system]
    returns is [raw] or one of the systems that a successful
    [use('astlib')] records in [coord_types]. *)
Theorem AstLibWCS_tag_supported
    (e : env) (raise_err : bool) (st : registry)
    (h : gmap string value) (tag : string) :
  (use e "astlib" raise_err st).2 = Ok true ->
  AstLibWCS_choose_coord_system h = Ok tag ->
  tag = "raw" ∨ In tag (coord_types (use e "astlib" raise_err st).1).
Proof.
  intros Hu Ht.
  assert (Hc : coord_types (use e "astlib" raise_err st).1
               = ["j2000"; "b1950"; "galactic"]).
  { revert Hu. cbv [use]. cbn [String.eqb Ascii.eqb Bool.eqb].
    cbv [mbind M_bind mret M_ret except_ImportError import_global import_local
         reraise_or_False raise].
    destruct raise_err;
      repeat match goal with
        | |- context [e ?m] => destruct (e m) eqn:?
        end; cbn; intros H; done. }
  rewrite Hc. revert Ht. unfold AstLibWCS_choose_coord_system.
  destruct (read_ctype h) as [c|[]]; try discriminate.
  - destruct (re_match_lit "GLON-" c); [intros [= <-]; cbn; tauto|].
    destruct (re_match_lit "RA---" c); [|intros [= <-]; cbn; tauto].
    destruct (read_radecsys h) as [v|]; [|discriminate]. cbn.
    destruct (as_str "strip" v) as [f|]; [|discriminate]. cbn.
    destruct (String.eqb (upper (strip f)) "FK4"); intros [= <-]; cbn; tauto.
  - intros [= <-]. by left.
Qed.

Lemma AstLibWCS_tag_supported_fk4 :
  "b1950" = "raw"
  ∨ In "b1950" (coord_types (use with_astlib "astlib" true initial).1).
Proof.
  apply (AstLibWCS_tag_supported with_astlib true initial ra_fk4 "b1950");
    by vm_compute.
Defined.

(** *** Trimming and upper case *)

Lemma isspace_upper_char (c : ascii) : isspace (upper_char c) = isspace c.
Proof. destruct c as [[] [] [] [] [] [] [] []]; reflexivity. Qed.

Lemma upper_char_twice (c : ascii) : upper_char (upper_char c) = upper_char c.
Proof. destruct c as [[] [] [] [] [] [] [] []]; reflexivity. Qed.

Lemma upper_twice (s : string) : upper (upper s) = upper s.
Proof.
  unfold upper. induction s as [|c s IH]; [done|].
  cbn [map_chars]. by rewrite upper_char_twice, IH.
Qed.

Lemma lstrip_upper (s : string) : lstrip (upper s) = upper (lstrip s).
Proof.
  unfold upper. induction s as [|c s IH]; [done|].
  cbn [map_chars lstrip]. rewrite isspace_upper_char.
  by destruct (isspace c).
Qed.

Lemma rstrip_upper (s : string) : rstrip (upper s) = upper (rstrip s).
Proof.
  unfold upper. induction s as [|c s IH]; [done|].
  cbn [map_chars rstrip]. rewrite IH.
  destruct (rstrip s) as [|a t]; cbn [map_chars]; [|done].
  rewrite isspace_upper_char. by destruct (isspace c).
Qed.

Lemma rstrip_twice (s : string) : rstrip (rstrip s) = rstrip s.
Proof.
  induction s as [|c s IH]; [done|]. cbn [rstrip].
  destruct (rstrip s) as [|a t] eqn:E.
  - destruct (isspace c) eqn:Ec; [done|]. cbn [rstrip]. by rewrite Ec.
  - change (rstrip (String c (String a t)))
      with (match rstrip (String a t) with
            | EmptyString =>
                if isspace c then EmptyString else String c EmptyString
            | u => String c u
            end).
    by rewrite IH.
Qed.

(** A trimmed string starts with no white space, and trimming it on the
    right keeps that. *)
Lemma lstrip_rstrip_lstrip (s : string) :
  lstrip (rstrip (lstrip s)) = rstrip (lstrip s).
Proof.
  induction s as [|c s IH]; [done|]. cbn [lstrip].
  destruct (isspace c) eqn:Ec; [exact IH|].
  cbn [rstrip]. destruct (rstrip s); rewrite ?Ec; cbn [lstrip]; by rewrite Ec.
Qed.

Lemma strip_twice (s : string) : strip (strip s) = strip s.
Proof. unfold strip. by rewrite lstrip_rstrip_lstrip, rstrip_twice. Qed.

Lemma strip_upper (s : string) : strip (upper s) = upper (strip s).
Proof. unfold strip. by rewrite lstrip_upper, rstrip_upper. Qed.

(** X12.  The classifiers do not tell a [CTYPE1] from its trimmed,
    uppercased form: writing the axis type in the form the code compares
    changes the answer of neither. *)
Theorem classifiers_ctype_normal_form (h : gmap string value) (ctype : string) :
  choose_coord_system (<["CTYPE1" := VStr (upper (strip ctype))]> h)
  = choose_coord_system (<["CTYPE1" := VStr ctype]> h)
  ∧ AstLibWCS_choose_coord_system
      (<["CTYPE1" := VStr (upper (strip ctype))]> h)
    = AstLibWCS_choose_coord_system (<["CTYPE1" := VStr ctype]> h).
Proof.
  assert (Hc : read_ctype (<["CTYPE1" := VStr (upper (strip ctype))]> h)
               = read_ctype (<["CTYPE1" := VStr ctype]> h)).
  { unfold read_ctype, getitem. rewrite !lookup_insert_eq. cbn.
    by rewrite strip_upper, strip_twice, upper_twice. }
  assert (Hr : read_radecsys (<["CTYPE1" := VStr (upper (strip ctype))]> h)
               = read_radecsys (<["CTYPE1" := VStr ctype]> h)).
  { apply read_radecsys_lookup; by rewrite !lookup_insert_ne. }
  unfold choose_coord_system, AstLibWCS_choose_coord_system.
  by rewrite Hc, Hr.
Qed.

End ClassifierMore.

(** ** The fallback engine: further properties *)

Module BareBonesMore.

Import BareBones Samples MoreSamples BareBonesProps.

Local Open Scope R_scope.

Lemma upper_deg : upper "deg" = "DEG"%string.
Proof. reflexivity. Qed.

(** What one unit keyword becomes. *)
Lemma fix_unit_lookup (key : string) (h h' : gmap string value) :
  fix_unit key h = Ok h' ->
  ∀ k, h' !! k
       = if decide (k = key)
         then match h !! key with
              | Some (VStr u) =>
                  if String.eqb (upper u) "DEGREE"
                  then Some (VStr "deg") else Some (VStr u)
              | other => other
              end
         else h !! k.
Proof.
  unfold fix_unit, get. intros H k.
  destruct (h !! key) as [[r|n|u|b]|] eqn:E; cbn in H; try discriminate H.
  - destruct (String.eqb (upper u) "DEGREE"); injection H as <-.
    + case_decide as D; [subst k; by rewrite lookup_insert_eq|].
      by rewrite lookup_insert_ne.
    + case_decide as D; [by subst k|done].
  - injection H as <-. case_decide as D; [by subst k|done].
Qed.

Lemma fix_unit_raises (key : string) (h : gmap string value) :
  is_ok (fix_unit key h) = false
  <-> ∃ v, h !! key = Some v ∧ ∀ u, v ≠ VStr u.
Proof.
  unfold fix_unit, get.
  destruct (h !! key) as [[r|n|u|b]|] eqn:E; cbn;
    try (split; [intros _; eexists; split; [reflexivity|done] | done]).
  - destruct (String.eqb (upper u) "DEGREE"); cbn;
      (split; [done|]); intros (v & [= <-] & Hv); by destruct (Hv u).
  - split; [done|]. by intros (v & [=] & _).
Qed.

Lemma fix_unit_noop (key : string) (h : gmap string value) :
  (∀ v, h !! key = Some v ->
        ∃ u, v = VStr u ∧ String.eqb (upper u) "DEGREE" = false) ->
  fix_unit key h = Ok h.
Proof.
  intros H. unfold fix_unit, get.
  destruct (h !! key) as [v|]; [|done].
  destruct (H v eq_refl) as (u & -> & E). cbn. by rewrite E.
Qed.

Lemma fix_bad_headers_effect_lookup (h h' : gmap string value) :
  fix_bad_headers h = Ok h' ->
  ∀ k, h' !! k
       = (if decide (k = "CUNIT1"%string ∨ k = "CUNIT2"%string)
          then match h !! k with
               | Some (VStr u) =>
                   if String.eqb (upper u) "DEGREE"
                   then Some (VStr "deg") else Some (VStr u)
               | other => other
               end
          else h !! k).
Proof.
  unfold fix_bad_headers.
  destruct (fix_unit "CUNIT1" h) as [h1|] eqn:E1; [|discriminate]. cbn.
  intros E2 k.
  rewrite (fix_unit_lookup _ _ _ E2 k).
  rewrite (fix_unit_lookup _ _ _ E1 "CUNIT2").
  rewrite (fix_unit_lookup _ _ _ E1 k).
  repeat case_decide; subst; try done; naive_solver.
Qed.

(** X13.  [fix_bad_headers], when it returns, has changed nothing but a
    [CUNIT1] or [CUNIT2] whose value reads DEGREE in some mix of cases,
    which is now ['deg']: every other keyword keeps its value, and no
    keyword is added or removed (a missing unit is not written). *)
Theorem fix_bad_headers_effect (h h' : gmap string value) :
  fix_bad_headers h = Ok h' ->
  ∀ k, h' !! k
       = (if decide (k = "CUNIT1"%string ∨ k = "CUNIT2"%string)
          then match h !! k with
               | Some (VStr u) =>
                   if String.eqb (upper u) "DEGREE"
                   then Some (VStr "deg") else Some (VStr u)
               | other => other
               end
          else h !! k)
       ∧ (is_Some (h' !! k) <-> is_Some (h !! k)).
Proof.
  intros H k. pose proof (fix_bad_headers_effect_lookup h h' H k) as Hk.
  split; [exact Hk|]. rewrite Hk.
  case_decide; [|done].
  destruct (h !! k) as [[r|n|u|b]|]; try done.
  destruct (String.eqb (upper u) "DEGREE"); split; intros _; by eexists.
Qed.

Lemma fix_bad_headers_effect_degree :
  (<["CUNIT1" := VStr "deg"]> degree_header) !! "CUNIT1" = Some (VStr "deg")
  ∧ (<["CUNIT1" := VStr "deg"]> degree_header) !! "CUNIT2"
    = degree_header !! "CUNIT2"
  ∧ (<["CUNIT1" := VStr "deg"]> degree_header) !! "CRPIX1"
    = degree_header !! "CRPIX1".
Proof.
  pose proof (fix_bad_headers_effect degree_header
                (<["CUNIT1" := VStr "deg"]> degree_header) eq_refl) as H.
  split; [exact (proj1 (H "CUNIT1"))|].
  split; [exact (proj1 (H "CUNIT2")) | exact (proj1 (H "CRPIX1"))].
Defined.

(** X14.  [fix_bad_headers] applied to its own result changes nothing
    more. *)
Theorem fix_bad_headers_twice (h h' : gmap string value) :
  fix_bad_headers h = Ok h' -> fix_bad_headers h' = Ok h'.
Proof.
  intros H.
  assert (Hn : ∀ key, key = "CUNIT1"%string ∨ key = "CUNIT2"%string ->
            fix_unit key h' = Ok h').
  { intros key Hkey. apply fix_unit_noop. intros v Hv.
    assert (Hk : h' !! key
       = match h !! key with
         | Some (VStr u) =>
             if String.eqb (upper u) "DEGREE"
             then Some (VStr "deg") else Some (VStr u)
         | other => other
         end).
    { unfold fix_bad_headers in H.
      destruct (fix_unit "CUNIT1" h) as [h1|] eqn:E1; [|discriminate].
      cbn in H.
      rewrite (fix_unit_lookup _ _ _ H key).
      rewrite (fix_unit_lookup _ _ _ E1 "CUNIT2").
      rewrite (fix_unit_lookup _ _ _ E1 key).
      destruct Hkey as [-> | ->]; repeat case_decide; try done. }
    rewrite Hk in Hv.
    assert (Hs : ∃ v0, h !! key = Some v0 ∧ ∃ u0, v0 = VStr u0).
    { unfold fix_bad_headers in H.
      destruct (fix_unit "CUNIT1" h) as [h1|] eqn:E1; [|discriminate].
      cbn in H.
      destruct (h !! key) as [v0|] eqn:E0; [|discriminate].
      exists v0. split; [done|].
      destruct v0 as [r|n|u|b]; try by eexists.
      - exfalso. destruct Hkey as [-> | ->].
        + unfold fix_unit, get in E1. by rewrite E0 in E1.
        + unfold fix_unit, get in H.
          rewrite (fix_unit_lookup _ _ _ E1 "CUNIT2") in H.
          case_decide; [done|]. by rewrite E0 in H.
      - exfalso. destruct Hkey as [-> | ->].
        + unfold fix_unit, get in E1. by rewrite E0 in E1.
        + unfold fix_unit, get in H.
          rewrite (fix_unit_lookup _ _ _ E1 "CUNIT2") in H.
          case_decide; [done|]. by rewrite E0 in H.
      - exfalso. destruct Hkey as [-> | ->].
        + unfold fix_unit, get in E1. by rewrite E0 in E1.
        + unfold fix_unit, get in H.
          rewrite (fix_unit_lookup _ _ _ E1 "CUNIT2") in H.
          case_decide; [done|]. by rewrite E0 in H. }
    destruct Hs as (v0 & E0 & u0 & ->). rewrite E0 in Hv.
    destruct (String.eqb (upper u0) "DEGREE") eqn:Ed; injection Hv as <-.
    - exists "deg"%string. split; [done|]. reflexivity.
    - by exists u0. }
  unfold fix_bad_headers. rewrite (Hn "CUNIT1") by (by left). cbn.
  apply Hn. by right.
Qed.

Lemma fix_bad_headers_twice_degree :
  fix_bad_headers (<["CUNIT1" := VStr "deg"]> degree_header)
  = Ok (<["CUNIT1" := VStr "deg"]> degree_header).
Proof.
  apply (fix_bad_headers_twice degree_header). reflexivity.
Defined.

(** The classifier does not see what [fix_bad_headers] changes. *)
Lemma choose_coord_system_fixed (h h' : gmap string value) :
  fix_bad_headers h = Ok h' ->
  Classifier.choose_coord_system h' = Classifier.choose_coord_system h.
Proof.
  intros H. unfold Classifier.choose_coord_system.
  assert (Hk : ∀ k, k ≠ "CUNIT1"%string -> k ≠ "CUNIT2"%string ->
            h' !! k = h !! k).
  { intros k H1 H2. rewrite (fix_bad_headers_effect_lookup h h' H k).
    case_decide as D; [by destruct D|done]. }
  rewrite (ClassifierMore.read_ctype_lookup h' h) by (by apply Hk).
  rewrite (ClassifierMore.read_radecsys_lookup h' h);
    [done | by apply Hk | by apply Hk | by rewrite Hk].
Qed.

(** X15.  [load_header] succeeds exactly when [CUNIT1] and [CUNIT2], where
    present, are strings and [choose_coord_system] returns on the caller's
    header; it asks for no transform keyword, so a header without any
    loads. *)
Theorem load_header_succeeds (self : engine) (hd : gmap string value) :
  is_ok (load_header self hd) = true
  <-> (∀ v, hd !! "CUNIT1" = Some v -> ∃ u, v = VStr u)
      ∧ (∀ v, hd !! "CUNIT2" = Some v -> ∃ u, v = VStr u)
      ∧ is_ok (Classifier.choose_coord_system hd) = true.
Proof.
  unfold load_header.
  destruct (fix_bad_headers hd) as [h|e] eqn:E; cbn.
  - rewrite (choose_coord_system_fixed _ _ E).
    assert (H1 : is_ok (fix_unit "CUNIT1" hd) = true).
    { unfold fix_bad_headers in E. by destruct (fix_unit "CUNIT1" hd). }
    assert (H2 : ∀ v, hd !! "CUNIT2" = Some v -> ∃ u, v = VStr u).
    { intros v Hv. unfold fix_bad_headers in E.
      destruct (fix_unit "CUNIT1" hd) as [h1|] eqn:E1; [|discriminate].
      cbn in E. unfold fix_unit, get in E.
      rewrite (fix_unit_lookup _ _ _ E1 "CUNIT2") in E.
      case_decide; [done|]. rewrite Hv in E.
      destruct v; try discriminate E. by eexists. }
    assert (H1' : ∀ v, hd !! "CUNIT1" = Some v -> ∃ u, v = VStr u).
    { intros v Hv. unfold fix_unit, get in H1. rewrite Hv in H1.
      destruct v; try discriminate H1. by eexists. }
    destruct (Classifier.choose_coord_system hd); cbn; naive_solver.
  - split; [done|]. intros (H1 & H2 & _). exfalso.
    unfold fix_bad_headers in E.
    destruct (fix_unit "CUNIT1" hd) as [h1|] eqn:E1; cbn in E.
    + assert (Hr : is_ok (fix_unit "CUNIT2" h1) = false) by by rewrite E.
      apply fix_unit_raises in Hr. destruct Hr as (v & Hv & Hn).
      rewrite (fix_unit_lookup _ _ _ E1 "CUNIT2") in Hv.
      case_decide; [done|]. destruct (H2 v Hv) as [u ->]. by apply (Hn u).
    + assert (Hr : is_ok (fix_unit "CUNIT1" hd) = false) by by rewrite E1.
      apply fix_unit_raises in Hr. destruct Hr as (v & Hv & Hn).
      destruct (H1 v Hv) as [u ->]. by apply (Hn u).
Qed.

Local Ltac in_list := cbn; repeat first [left; reflexivity | right].

Section Transforms.

Variable float_of_str : string -> option R.

(** The transforms ask the header for the keywords of [transform_keys]
    and no other. *)
Lemma transforms_read (s1 s2 : engine) :
  (∀ k, In k transform_keys -> header s1 !! k = header s2 !! k) ->
  get_reference_pixel float_of_str s1 = get_reference_pixel float_of_str s2
  ∧ get_physical_reference_pixel float_of_str s1
    = get_physical_reference_pixel float_of_str s2
  ∧ get_pixel_coordinates float_of_str s1
    = get_pixel_coordinates float_of_str s2.
Proof.
  intros H.
  assert (Hk : ∀ k, In k transform_keys ->
            float_keyword float_of_str s1 k = float_keyword float_of_str s2 k).
  { intros k Hin. unfold float_keyword, getitem. by rewrite (H k Hin). }
  unfold get_reference_pixel, get_physical_reference_pixel,
    get_pixel_coordinates, read_cd, read_matrix.
  rewrite !(Hk "CRPIX1"), !(Hk "CRPIX2"), !(Hk "CRVAL1"), !(Hk "CRVAL2"),
    !(Hk "CD1_1"), !(Hk "CD1_2"), !(Hk "CD2_1"), !(Hk "CD2_2"),
    !(Hk "CDELT1"), !(Hk "CDELT2"),
    !(Hk "PC1_1"), !(Hk "PC1_2"), !(Hk "PC2_1"), !(Hk "PC2_2"),
    !(Hk "PC001001"), !(Hk "PC001002"), !(Hk "PC002001"), !(Hk "PC002002")
    by in_list.
  done.
Qed.

(** X16.  The two transforms depend on the header through the keywords of
    [transform_keys] alone: engines whose headers agree on these give the
    same results and raise the same exceptions, whatever their [coordsys]
    and the rest of their headers, the axis types included. *)
Theorem transforms_depend_on_keys (s1 s2 : engine) :
  (∀ k, In k transform_keys -> header s1 !! k = header s2 !! k) ->
  (∀ idxs coords,
     pixtoradec float_of_str s1 idxs coords
     = pixtoradec float_of_str s2 idxs coords)
  ∧ (∀ ra_deg dec_deg coords,
       radectopix float_of_str s1 ra_deg dec_deg coords
       = radectopix float_of_str s2 ra_deg dec_deg coords).
Proof.
  intros H. destruct (transforms_read s1 s2 H) as (Hp & Hv & Hcd).
  split; intros; unfold pixtoradec, radectopix; by rewrite Hp, Hv, Hcd.
Qed.

(** X17.  After a successful [load_header] the engine's [coordsys] is the
    tag of the caller's header, and its transforms are those of the
    caller's header as it was given: rewriting the units changes no
    result. *)
Theorem load_header_keeps_transforms
    (self self' : engine) (hd : gmap string value) :
  load_header self hd = Ok self' ->
  Classifier.choose_coord_system hd = Ok (coordsys self')
  ∧ (∀ idxs coords,
       pixtoradec float_of_str self' idxs coords
       = pixtoradec float_of_str (holding hd) idxs coords)
  ∧ (∀ ra_deg dec_deg coords,
       radectopix float_of_str self' ra_deg dec_deg coords
       = radectopix float_of_str (holding hd) ra_deg dec_deg coords).
Proof.
  unfold load_header.
  destruct (fix_bad_headers hd) as [h|] eqn:E; [|discriminate]. cbn.
  rewrite (choose_coord_system_fixed _ _ E).
  destruct (Classifier.choose_coord_system hd) as [tag|]; [|discriminate].
  cbn. intros [= <-]. split; [done|].
  assert (H : ∀ k, In k transform_keys ->
            h !! k = header (holding hd) !! k).
  { intros k Hin. rewrite (fix_bad_headers_effect_lookup _ _ E k).
    case_decide as D; [|done].
    exfalso. cbn in Hin. destruct D as [-> | ->];
      repeat (destruct Hin as [Hin|Hin]; [discriminate Hin|]); done. }
  destruct (transforms_read
              {| header := h; coordsys := tag; kind := kind self |}
              (holding hd) H) as (Hp & Hv & Hcd).
  split; intros; unfold pixtoradec, radectopix; by rewrite Hp, Hv, Hcd.
Qed.

(** X18.  [pixtoradec] gives the same answer for a pixel in the ['data']
    convention and for the pixel one further on each axis in any other
    convention, exceptions included; indices after the second are not
    read. *)
Theorem pixtoradec_conventions (self : engine) (x y : R)
    (rest rest' : list R) (coords : string) :
  coords ≠ "data"%string ->
  pixtoradec float_of_str self (x :: y :: rest) "data"
  = pixtoradec float_of_str self (x + 1 :: y + 1 :: rest') coords.
Proof.
  intros H. apply String.eqb_neq in H.
  unfold pixtoradec. cbn [unpack2 mbind result_bind bind].
  rewrite H. reflexivity.
Qed.

(** X19.  [radectopix] in the ['data'] convention returns the pixel of any
    other convention moved back by one on each axis, and raises what the
    other raises. *)
Theorem radectopix_conventions (self : engine) (ra_deg dec_deg : R)
    (coords : string) :
  coords ≠ "data"%string ->
  radectopix float_of_str self ra_deg dec_deg "data"
  = '(x, y) ← radectopix float_of_str self ra_deg dec_deg coords;
    Ok (x - 1, y - 1).
Proof.
  intros H. apply String.eqb_neq in H.
  unfold radectopix.
  destruct (get_reference_pixel float_of_str self) as [[p1 p2]|]; [|done].
  cbn [mbind result_bind bind].
  destruct (get_physical_reference_pixel float_of_str self) as [[v1 v2]|];
    [|done].
  cbn [mbind result_bind bind].
  destruct (get_pixel_coordinates float_of_str self) as [[[[a b] c] d]|];
    [|done].
  cbn [mbind result_bind bind].
  destruct (Z.eqb (cmp (a * d - b * c) 0) 0); [done|].
  rewrite H. cbn [String.eqb Ascii.eqb Bool.eqb].
  match goal with
  | |- context [truediv ?n ?m] => destruct (truediv n m); [|done]
  end.
  cbn [mbind result_bind bind].
  match goal with
  | |- context [truediv ?n ?m] => destruct (truediv n m); [|done]
  end.
  done.
Qed.

(** X21.  The reference pixel and the reference position answer each
    other in the ['fits'] convention: at ([CRVAL1], [CRVAL2]) [radectopix]
    returns ([CRPIX1], [CRPIX2]) unless it raises the [WCSError] of the
    matrix check, and [pixtoradec] sends ([CRPIX1], [CRPIX2]) to
    ([CRVAL1], [CRVAL2]) when the cosine of the reference declination is
    not zero.  Both offsets are zero there, so every product with them is
    zero and the matrix has no say in the result. *)
Theorem reference_point (self : engine) (coords : string)
    (crpix1 crpix2 crval1 crval2 cd11 cd12 cd21 cd22 : R) :
  get_reference_pixel float_of_str self = Ok (crpix1, crpix2) ->
  get_physical_reference_pixel float_of_str self = Ok (crval1, crval2) ->
  get_pixel_coordinates float_of_str self = Ok (cd11, cd12, cd21, cd22) ->
  coords ≠ "data"%string ->
  (radectopix float_of_str self crval1 crval2 coords = Ok (crpix1, crpix2)
   ∨ radectopix float_of_str self crval1 crval2 coords
     = Raise (WCSError WCS_Matrix_Error))
  ∧ (cos (radians crval2) ≠ 0 ->
     pixtoradec float_of_str self [crpix1; crpix2] coords
     = Ok (crval1, crval2)).
Proof.
  intros Hp Hv Hcd Hc. apply String.eqb_neq in Hc. split.
  - destruct (Req_dec_T (cd11 * cd22 - cd12 * cd21) 0) as [E|Hdet].
    + right. unfold radectopix.
      rewrite Hp, Hv, Hcd. cbn [mbind result_bind bind].
      by rewrite (proj2 (Z.eqb_eq _ _) (proj2 (cmp_zero _ _) E)).
    + left.
      rewrite (radectopix_eq _ _ _ _ _ _ _ _ _ _ _ _ _ Hp Hv Hcd Hdet).
      rewrite Hc, Rgt_b_false, Rlt_b_false by lra.
      f_equal. f_equal; by field.
  - intros Hcos.
    rewrite (pixtoradec_eq _ _ _ _ _ _ _ _ _ _ _ _ _ _ Hp Hv Hcd Hcos).
    rewrite Hc. f_equal. f_equal; by field.
Qed.

(** The [try] over the [CD] keywords fails when one of them is missing. *)
Lemma read_cd_missing (self : engine) (k : string) :
  In k ["CD1_1"; "CD1_2"; "CD2_1"; "CD2_2"]%string ->
  header self !! k = None ->
  ∃ e, read_cd float_of_str self = Raise e.
Proof.
  intros Hin Hk. unfold read_cd.
  assert (Hf : float_keyword float_of_str self k = Raise (KeyError k)).
  { unfold float_keyword, getitem. by rewrite Hk. }
  cbn in Hin.
  destruct Hin as [<-|[<-|[<-|[<-|[]]]]];
    repeat match goal with
      | |- context [float_keyword float_of_str self ?key] =>
          first [ rewrite Hf; cbn [mbind result_bind bind]; by eexists
                | destruct (float_keyword float_of_str self key);
                  cbn [mbind result_bind bind]; [|by eexists] ]
      end.
Qed.

(** The matrix when a [CD] keyword is missing and the first spelling of
    the [PC] keywords is read. *)
Lemma get_pixel_coordinates_pc_eq (self : engine) (k : string)
    (cdelt1 cdelt2 pc11 pc12 pc21 pc22 : R) :
  In k ["CD1_1"; "CD1_2"; "CD2_1"; "CD2_2"]%string ->
  header self !! k = None ->
  float_keyword float_of_str self "CDELT1" = Ok cdelt1 ->
  float_keyword float_of_str self "CDELT2" = Ok cdelt2 ->
  float_keyword float_of_str self "PC1_1" = Ok pc11 ->
  float_keyword float_of_str self "PC1_2" = Ok pc12 ->
  float_keyword float_of_str self "PC2_1" = Ok pc21 ->
  float_keyword float_of_str self "PC2_2" = Ok pc22 ->
  get_pixel_coordinates float_of_str self
  = Ok (pc11 * cdelt1, pc12 * cdelt1, pc21 * cdelt2, pc22 * cdelt2).
Proof.
  intros Hin Hk H1 H2 Ha Hb Hc Hd.
  destruct (read_cd_missing self k Hin Hk) as [e He].
  unfold get_pixel_coordinates, read_matrix.
  rewrite He, H1, H2, Ha, Hb, Hc, Hd. reflexivity.
Qed.

(** X23.  Where the matrix comes from: the four [CD] keywords, when all
    are read, are returned as they are, whatever [CDELT] and [PC]
    keywords the header holds; when a [CD] keyword is missing, the matrix
    is built from [CDELT1], [CDELT2] and the [PC] keywords, each row of
    the [PC] matrix scaled by the [CDELT] of its axis. *)
Theorem get_pixel_coordinates_sources (self : engine) :
  (∀ cd11 cd12 cd21 cd22,
     float_keyword float_of_str self "CD1_1" = Ok cd11 ->
     float_keyword float_of_str self "CD1_2" = Ok cd12 ->
     float_keyword float_of_str self "CD2_1" = Ok cd21 ->
     float_keyword float_of_str self "CD2_2" = Ok cd22 ->
     get_pixel_coordinates float_of_str self = Ok (cd11, cd12, cd21, cd22))
  ∧ (∀ k cdelt1 cdelt2 pc11 pc12 pc21 pc22,
       In k ["CD1_1"; "CD1_2"; "CD2_1"; "CD2_2"]%string ->
       header self !! k = None ->
       float_keyword float_of_str self "CDELT1" = Ok cdelt1 ->
       float_keyword float_of_str self "CDELT2" = Ok cdelt2 ->
       float_keyword float_of_str self "PC1_1" = Ok pc11 ->
       float_keyword float_of_str self "PC1_2" = Ok pc12 ->
       float_keyword float_of_str self "PC2_1" = Ok pc21 ->
       float_keyword float_of_str self "PC2_2" = Ok pc22 ->
       get_pixel_coordinates float_of_str self
       = Ok (pc11 * cdelt1, pc12 * cdelt1, pc21 * cdelt2, pc22 * cdelt2)).
Proof.
  split.
  - intros cd11 cd12 cd21 cd22 H1 H2 H3 H4.
    unfold get_pixel_coordinates, read_cd. by rewrite H1, H2, H3, H4.
  - intros k cdelt1 cdelt2 pc11 pc12 pc21 pc22.
    apply get_pixel_coordinates_pc_eq.
Qed.

(** X24.  The second spelling [PC00i00j] is read when the first [PC]
    keyword is missing, and only then: a [PC1_1] that is a string which
    [float] refuses raises [ValueError] although the second spelling is
    complete. *)
Theorem get_pixel_coordinates_pc_legacy (self : engine) (k : string)
    (cdelt1 cdelt2 pc11 pc12 pc21 pc22 : R) :
  In k ["CD1_1"; "CD1_2"; "CD2_1"; "CD2_2"]%string ->
  header self !! k = None ->
  float_keyword float_of_str self "CDELT1" = Ok cdelt1 ->
  float_keyword float_of_str self "CDELT2" = Ok cdelt2 ->
  float_keyword float_of_str self "PC001001" = Ok pc11 ->
  float_keyword float_of_str self "PC001002" = Ok pc12 ->
  float_keyword float_of_str self "PC002001" = Ok pc21 ->
  float_keyword float_of_str self "PC002002" = Ok pc22 ->
  (header self !! "PC1_1" = None ->
   get_pixel_coordinates float_of_str self
   = Ok (pc11 * cdelt1, pc12 * cdelt1, pc21 * cdelt2, pc22 * cdelt2))
  ∧ (∀ s, header self !! "PC1_1" = Some (VStr s) ->
          float_of_str s = None ->
          get_pixel_coordinates float_of_str self = Raise ValueError).
Proof.
  intros Hin Hk H1 H2 Ha Hb Hc Hd.
  destruct (read_cd_missing self k Hin Hk) as [e He].
  unfold get_pixel_coordinates. rewrite He, H1, H2.
  cbn [except_Exception mbind result_bind bind].
  split.
  - intros Hn. unfold read_matrix at 1.
    assert (Hf : float_keyword float_of_str self "PC1_1"
                 = Raise (KeyError "PC1_1")).
    { unfold float_keyword, getitem. by rewrite Hn. }
    rewrite Hf. cbn [except_KeyError mbind result_bind bind].
    unfold read_matrix. by rewrite Ha, Hb, Hc, Hd.
  - intros s Hs Hn. unfold read_matrix at 1.
    assert (Hf : float_keyword float_of_str self "PC1_1" = Raise ValueError).
    { unfold float_keyword, getitem. rewrite Hs. cbn. by rewrite Hn. }
    by rewrite Hf.
Qed.

(** X25.  With the matrix built from [PC] and [CDELT], and the reference
    pixel and position read, a [CDELT1] or a [CDELT2] that is zero makes
    [radectopix] raise the [WCSError] of the matrix check: a row of the
    matrix is zero then, and so is each product of the determinant. *)
Theorem radectopix_zero_cdelt (self : engine) (k : string)
    (ra_deg dec_deg : R) (coords : string)
    (crpix1 crpix2 crval1 crval2 cdelt1 cdelt2 pc11 pc12 pc21 pc22 : R) :
  get_reference_pixel float_of_str self = Ok (crpix1, crpix2) ->
  get_physical_reference_pixel float_of_str self = Ok (crval1, crval2) ->
  In k ["CD1_1"; "CD1_2"; "CD2_1"; "CD2_2"]%string ->
  header self !! k = None ->
  float_keyword float_of_str self "CDELT1" = Ok cdelt1 ->
  float_keyword float_of_str self "CDELT2" = Ok cdelt2 ->
  float_keyword float_of_str self "PC1_1" = Ok pc11 ->
  float_keyword float_of_str self "PC1_2" = Ok pc12 ->
  float_keyword float_of_str self "PC2_1" = Ok pc21 ->
  float_keyword float_of_str self "PC2_2" = Ok pc22 ->
  cdelt1 = 0 ∨ cdelt2 = 0 ->
  radectopix float_of_str self ra_deg dec_deg coords
  = Raise (WCSError WCS_Matrix_Error).
Proof.
  intros Hp Hv Hin Hk H1 H2 Ha Hb Hc Hd Hz.
  pose proof (get_pixel_coordinates_pc_eq self k _ _ _ _ _ _
                Hin Hk H1 H2 Ha Hb Hc Hd) as Hcd.
  assert (E : pc11 * cdelt1 * (pc22 * cdelt2)
              - pc12 * cdelt1 * (pc21 * cdelt2) = 0).
  { destruct Hz as [-> | ->]; ring. }
  unfold radectopix.
  rewrite Hp, Hv, Hcd. cbn [mbind result_bind bind].
  by rewrite (proj2 (Z.eqb_eq _ _) (proj2 (cmp_zero _ _) E)).
Qed.

(** X26.  [pixtoradec] wants two indices: with fewer it raises
    [ValueError] before the header is read, whatever the header and the
    convention. *)
Theorem pixtoradec_arity (self : engine) (idxs : list R) (coords : string) :
  (length idxs < 2)%nat ->
  pixtoradec float_of_str self idxs coords = Raise ValueError.
Proof.
  intros H. destruct idxs as [|x [|y rest]]; [done|done|].
  cbn in H. lia.
Qed.

(** X27.  Without [CRPIX1] in the header, as before any [load_header],
    both transforms raise [KeyError] for [CRPIX1], the first keyword they
    ask for. *)
Theorem transforms_need_CRPIX1 (self : engine) (x y : R) (rest : list R)
    (ra_deg dec_deg : R) (coords : string) :
  header self !! "CRPIX1" = None ->
  pixtoradec float_of_str self (x :: y :: rest) coords
  = Raise (KeyError "CRPIX1")
  ∧ radectopix float_of_str self ra_deg dec_deg coords
    = Raise (KeyError "CRPIX1").
Proof.
  intros H.
  assert (Hp : get_reference_pixel float_of_str self
               = Raise (KeyError "CRPIX1")).
  { unfold get_reference_pixel, float_keyword, getitem. by rewrite H. }
  unfold pixtoradec, radectopix. cbn [unpack2 mbind result_bind bind].
  rewrite Hp. by destruct (String.eqb coords "data").
Qed.

End Transforms.

(** *** The properties on sample headers *)

Local Ltac scenario_reads Hp Hv Hcd :=
  destruct (wcs_header_reads float_of_no_str
              50 50 180 0 (-1 / 1000) 0 0 (1 / 1000))
    as (_ & Hp & ?Hx & ?Hy & Hcd);
  pose proof (get_physical_reference_pixel_in_range _ _ _ _ Hx Hy
                ltac:(lra) ltac:(lra)) as Hv.

Lemma transforms_depend_on_keys_galactic :
  (∀ idxs coords,
     pixtoradec float_of_no_str (holding reference_scenario) idxs coords
     = pixtoradec float_of_no_str galactic_engine idxs coords)
  ∧ (∀ ra_deg dec_deg coords,
       radectopix float_of_no_str (holding reference_scenario)
         ra_deg dec_deg coords
       = radectopix float_of_no_str galactic_engine ra_deg dec_deg coords).
Proof.
  apply (transforms_depend_on_keys float_of_no_str
           (holding reference_scenario) galactic_engine).
  intros k Hin. cbn in Hin.
  repeat (destruct Hin as [<-|Hin]; [reflexivity|]). destruct Hin.
Defined.

Lemma load_header_keeps_transforms_degree :
  Classifier.choose_coord_system degree_header = Ok (coordsys degree_loaded)
  ∧ (∀ idxs coords,
       pixtoradec float_of_no_str degree_loaded idxs coords
       = pixtoradec float_of_no_str (holding degree_header) idxs coords)
  ∧ (∀ ra_deg dec_deg coords,
       radectopix float_of_no_str degree_loaded ra_deg dec_deg coords
       = radectopix float_of_no_str (holding degree_header)
           ra_deg dec_deg coords).
Proof.
  apply (load_header_keeps_transforms float_of_no_str init degree_loaded
           degree_header).
  reflexivity.
Defined.

Lemma pixtoradec_conventions_sample :
  pixtoradec float_of_no_str (holding reference_scenario) [49; 49] "data"
  = pixtoradec float_of_no_str (holding reference_scenario)
      [49 + 1; 49 + 1] "fits".
Proof.
  apply (pixtoradec_conventions float_of_no_str
           (holding reference_scenario) 49 49 [] [] "fits").
  discriminate.
Defined.

Lemma radectopix_conventions_sample :
  radectopix float_of_no_str (holding reference_scenario) 181 1 "data"
  = '(x, y) ← radectopix float_of_no_str (holding reference_scenario)
                181 1 "fits";
    Ok (x - 1, y - 1).
Proof.
  apply (radectopix_conventions float_of_no_str
           (holding reference_scenario) 181 1 "fits").
  discriminate.
Defined.

Lemma reference_point_sample :
  (radectopix float_of_no_str (holding reference_scenario) 180 0 "fits"
   = Ok (50, 50)
   ∨ radectopix float_of_no_str (holding reference_scenario) 180 0 "fits"
     = Raise (WCSError WCS_Matrix_Error))
  ∧ pixtoradec float_of_no_str (holding reference_scenario) [50; 50] "fits"
    = Ok (180, 0).
Proof.
  scenario_reads Hp Hv Hcd.
  destruct (reference_point float_of_no_str (holding reference_scenario)
              "fits" 50 50 180 0 (-1 / 1000) 0 0 (1 / 1000) Hp Hv Hcd)
    as [H1 H2]; [discriminate|].
  split; [exact H1 | apply H2; rewrite cos_radians_0; lra].
Defined.

Lemma get_pixel_coordinates_sources_sample :
  get_pixel_coordinates float_of_no_str
    (holding (<["PC1_1" := VFloat 7]> reference_scenario))
  = Ok (-1 / 1000, 0, 0, 1 / 1000)
  ∧ get_pixel_coordinates float_of_no_str (holding (pc_header 2 3 1 0 0 1))
    = Ok (1 * 2, 0 * 2, 0 * 3, 1 * 3).
Proof.
  split.
  - apply (proj1 (get_pixel_coordinates_sources float_of_no_str
                    (holding (<["PC1_1" := VFloat 7]> reference_scenario))));
      reflexivity.
  - apply (proj2 (get_pixel_coordinates_sources float_of_no_str
                    (holding (pc_header 2 3 1 0 0 1))) "CD1_1");
      first [reflexivity | by left].
Defined.

Lemma get_pixel_coordinates_pc_legacy_sample :
  get_pixel_coordinates float_of_no_str
    (holding (pc_legacy_header 2 3 1 0 0 1))
  = Ok (1 * 2, 0 * 2, 0 * 3, 1 * 3)
  ∧ get_pixel_coordinates float_of_no_str (holding pc_legacy_bad)
    = Raise ValueError.
Proof.
  split.
  - apply (get_pixel_coordinates_pc_legacy float_of_no_str
             (holding (pc_legacy_header 2 3 1 0 0 1)) "CD1_1");
      first [reflexivity | by left].
  - eapply (get_pixel_coordinates_pc_legacy float_of_no_str
              (holding pc_legacy_bad) "CD1_1" 2 3 1 0 0 1);
      first [reflexivity | by left].
Defined.

Lemma radectopix_zero_cdelt_sample :
  radectopix float_of_no_str (holding (pc_header 0 3 1 0 0 1)) 181 1 "fits"
  = Raise (WCSError WCS_Matrix_Error).
Proof.
  apply (radectopix_zero_cdelt float_of_no_str
           (holding (pc_header 0 3 1 0 0 1)) "CD1_1" 181 1 "fits"
           50 50 180 0 0 3 1 0 0 1);
    try first [reflexivity | by left].
  apply (get_physical_reference_pixel_in_range float_of_no_str
           (holding (pc_header 0 3 1 0 0 1)) 180 0);
    first [reflexivity | lra].
Defined.

Lemma pixtoradec_arity_sample :
  pixtoradec float_of_no_str (holding reference_scenario) [50] "fits"
  = Raise ValueError.
Proof.
  apply (pixtoradec_arity float_of_no_str (holding reference_scenario)).
  cbn. lia.
Defined.

Lemma transforms_need_CRPIX1_init :
  pixtoradec float_of_no_str init [50; 50] "fits" = Raise (KeyError "CRPIX1")
  ∧ radectopix float_of_no_str init 180 0 "fits" = Raise (KeyError "CRPIX1").
Proof.
  apply (transforms_need_CRPIX1 float_of_no_str init 50 50 [] 180 0 "fits").
  reflexivity.
Defined.

End BareBonesMore.

(** ** The pixel conventions across the classes *)

Module AdaptersProps.

Import Adapters Samples MoreSamples.

Local Open Scope R_scope.

Lemma gives_two (l : list R) :
  length l = 2%nat -> ∃ a b, l = [a; b].
Proof.
  destruct l as [|a [|b [|c l]]]; try discriminate. intros _. by eexists _, _.
Qed.

(** X28.  When the native transforms of astLib and kapteyn describe the
    same mapping, the one counting pixels from 0 and the other from 1,
    and give two values each, [AstLibWCS] and [KapteynWCS] answer alike
    in the ['data'] and in the ['fits'] convention, for [pixtoradec] and
    for [radectopix]: the shift of one pixel is made by the class whose
    library counts the other way (real arithmetic). *)
Theorem adapters_agree {X : Type}
    (wa : astlib_wcs X) (wk : kapteyn_wcs X) (coords : string) :
  (∀ x y, toworld wk [x + 1; y + 1] = pix2wcs wa x y) ->
  (∀ x y l, pix2wcs wa x y = Gives l -> length l = 2%nat) ->
  (∀ ra dec,
     topixel wk [ra; dec]
     = match wcs2pix wa ra dec with
       | Gives l => Gives (map (fun v => v + 1) l)
       | Throws x => Throws x
       end) ->
  (∀ ra dec l, wcs2pix wa ra dec = Gives l -> length l = 2%nat) ->
  coords = "data"%string ∨ coords = "fits"%string ->
  (∀ x y,
     KapteynWCS_pixtoradec (Some wk) [x; y] coords
     = AstLibWCS_pixtoradec (Some wa) [x; y] coords)
  ∧ (∀ ra_deg dec_deg,
       KapteynWCS_radectopix (Some wk) ra_deg dec_deg coords []
       = AstLibWCS_radectopix (Some wa) ra_deg dec_deg coords).
Proof.
  intros Hfw Hfl Hbw Hbl [-> | ->]; split.
  - intros x y. unfold KapteynWCS_pixtoradec, AstLibWCS_pixtoradec.
    cbn [String.eqb Ascii.eqb Bool.eqb map]. rewrite Hfw.
    destruct (pix2wcs wa x y) as [l|e] eqn:E; [|done].
    destruct (gives_two l (Hfl _ _ _ E)) as (a & b & ->). done.
  - intros ra dec. unfold KapteynWCS_radectopix, AstLibWCS_radectopix.
    cbn [String.eqb Ascii.eqb Bool.eqb length repeat app]. rewrite Hbw.
    destruct (wcs2pix wa ra dec) as [l|e] eqn:E; [|done].
    destruct (gives_two l (Hbl _ _ _ E)) as (a & b & ->).
    cbn [map unpack_exactly2]. f_equal. f_equal; lra.
  - intros x y. unfold KapteynWCS_pixtoradec, AstLibWCS_pixtoradec.
    cbn [String.eqb Ascii.eqb Bool.eqb map]. rewrite <- Hfw.
    replace (x - 1 + 1) with x by lra. replace (y - 1 + 1) with y by lra.
    destruct (toworld wk [x; y]) as [l|e] eqn:E; [|done].
    assert (Hl : length l = 2%nat).
    { apply (Hfl (x - 1) (y - 1)). rewrite <- Hfw.
      replace (x - 1 + 1) with x by lra. by replace (y - 1 + 1) with y by lra. }
    destruct (gives_two l Hl) as (a & b & ->). done.
  - intros ra dec. unfold KapteynWCS_radectopix, AstLibWCS_radectopix.
    cbn [String.eqb Ascii.eqb Bool.eqb length repeat app]. rewrite Hbw.
    destruct (wcs2pix wa ra dec) as [l|e] eqn:E; [|done].
    destruct (gives_two l (Hbl _ _ _ E)) as (a & b & ->). done.
Qed.

Lemma adapters_agree_sample :
  (∀ x y,
     KapteynWCS_pixtoradec (Some sample_kapteyn) [x; y] "fits"
     = AstLibWCS_pixtoradec (Some sample_astlib) [x; y] "fits")
  ∧ (∀ ra_deg dec_deg,
       KapteynWCS_radectopix (Some sample_kapteyn) ra_deg dec_deg "fits" []
       = AstLibWCS_radectopix (Some sample_astlib) ra_deg dec_deg "fits").
Proof.
  apply (adapters_agree sample_astlib sample_kapteyn "fits").
  - intros x y. cbn. f_equal. f_equal; [lra|]. f_equal. lra.
  - intros x y l [= <-]. reflexivity.
  - intros ra dec. reflexivity.
  - intros ra dec l [= <-]. reflexivity.
  - by right.
Defined.

(** X29.  A convention that is neither ['data'] nor ['fits'] is read as
    ['data'] by [AstLibWCS], which tests for ['fits'], and as ['fits'] by
    [KapteynWCS] and [BareBonesWCS], which test for ['data']. *)
Theorem unnamed_convention {X : Type}
    (wa : option (astlib_wcs X)) (wk : option (kapteyn_wcs X))
    (float_of_str : string -> option R) (self : BareBones.engine)
    (idxs : list R) (ra_deg dec_deg : R) (naxispath : list R)
    (coords : string) :
  coords ≠ "data"%string -> coords ≠ "fits"%string ->
  AstLibWCS_pixtoradec wa idxs coords = AstLibWCS_pixtoradec wa idxs "data"
  ∧ AstLibWCS_radectopix wa ra_deg dec_deg coords
    = AstLibWCS_radectopix wa ra_deg dec_deg "data"
  ∧ KapteynWCS_pixtoradec wk idxs coords
    = KapteynWCS_pixtoradec wk idxs "fits"
  ∧ KapteynWCS_radectopix wk ra_deg dec_deg coords naxispath
    = KapteynWCS_radectopix wk ra_deg dec_deg "fits" naxispath
  ∧ BareBones.pixtoradec float_of_str self idxs coords
    = BareBones.pixtoradec float_of_str self idxs "fits"
  ∧ BareBones.radectopix float_of_str self ra_deg dec_deg coords
    = BareBones.radectopix float_of_str self ra_deg dec_deg "fits".
Proof.
  intros Hd Hf. apply String.eqb_neq in Hd, Hf.
  unfold AstLibWCS_pixtoradec, AstLibWCS_radectopix, KapteynWCS_pixtoradec,
    KapteynWCS_radectopix, BareBones.pixtoradec, BareBones.radectopix.
  rewrite Hd, Hf. cbn [String.eqb Ascii.eqb Bool.eqb]. done.
Qed.

Lemma unnamed_convention_image :
  AstLibWCS_pixtoradec (Some sample_astlib) [1; 1] "image"
  = AstLibWCS_pixtoradec (Some sample_astlib) [1; 1] "data"
  ∧ AstLibWCS_radectopix (Some sample_astlib) 11 21 "image"
    = AstLibWCS_radectopix (Some sample_astlib) 11 21 "data"
  ∧ KapteynWCS_pixtoradec (Some sample_kapteyn) [1; 1] "image"
    = KapteynWCS_pixtoradec (Some sample_kapteyn) [1; 1] "fits"
  ∧ KapteynWCS_radectopix (Some sample_kapteyn) 11 21 "image" []
    = KapteynWCS_radectopix (Some sample_kapteyn) 11 21 "fits" []
  ∧ BareBones.pixtoradec float_of_no_str (holding reference_scenario)
      [1; 1] "image"
    = BareBones.pixtoradec float_of_no_str (holding reference_scenario)
        [1; 1] "fits"
  ∧ BareBones.radectopix float_of_no_str (holding reference_scenario)
      11 21 "image"
    = BareBones.radectopix float_of_no_str (holding reference_scenario)
        11 21 "fits".
Proof.
  apply (unnamed_convention (Some sample_astlib) (Some sample_kapteyn)
           float_of_no_str (holding reference_scenario) [1; 1] 11 21 []
           "image"); discriminate.
Defined.

End AdaptersProps.
